(** * Registration service (server.js): a shallow embedding of both versions

    The repository is one Express application, [server.js], of which the
    source holds two versions: the first one (JSON body, no error handling)
    and the second one (multipart upload of a payment screenshot, every
    handler wrapped in [try]/[catch]).  Handlers are [async] functions that
    call the MongoDB driver and [fs]; they are embedded as finite programs
    over those calls, interpreted on an explicit server state. *)

From Stdlib Require Import ZArith NArith String Ascii List Bool Lia.
From Stdlib Require Import Decimal DecimalString DecimalPos DecimalN.
From stdpp Require Import base decidable option list strings gmap.

Local Open Scope string_scope.

(* ===================================================================== *)
(** ** JavaScript values the handlers look at *)
(* ===================================================================== *)

Module JS.

(** A field of [req.body].  Form fields are text: a field is either absent
    ([undefined]) or a string.  A character of a string stands for one code
    unit; the model covers code units below 256. *)
Inductive field : Type :=
| undefined
| text (s : string).

#[export] Instance field_eq_dec : EqDecision field.
Proof. solve_decision. Defined.

(** ToBoolean: [undefined] and the empty string are falsy. *)
Definition truthy (v : field) : bool :=
  match v with
  | undefined => false
  | text s => negb (String.eqb s "")
  end.

(** ToString. *)
Definition ToString (v : field) : string :=
  match v with
  | undefined => "undefined"
  | text s => s
  end.

(** A Number as [parseInt] can return it: NaN, -0, an infinity, or a finite
    Number whose value is an integer.  [Num z] is the double whose value is
    [z]; [parseInt] builds it only from integers a double holds exactly
    ([nearestDouble] below). *)
Inductive number : Type :=
| NaN
| NegZero
| Infinity (negative : bool)
| Num (mathInt : Z).

#[export] Instance number_eq_dec : EqDecision number.
Proof. solve_decision. Defined.


(** The Number value of a non-negative integer [m]: [m] itself up to 2^53;
    beyond, the nearest integer with a significand of 53 bits, a tie going
    to the even significand; [None] when that is 2^1024 or more, where the
    Number is an infinity. *)
Definition nearestDouble (m : N) : option N :=
  if (m <=? 2 ^ 53)%N then Some m
  else
    let e := (N.log2 m - 52)%N in
    let q := N.shiftr m e in
    let r := N.land m (N.ones e) in
    let half := N.shiftl 1 (e - 1) in
    let q' := if (half <? r)%N || ((r =? half)%N && N.odd q)
              then (q + 1)%N else q in
    let v := N.shiftl q' e in
    if (v <? 2 ^ 1024)%N then Some v else None.

(** StrWhiteSpaceChar, for code units below 256: TAB, LF, VT, FF, CR, SP
    and NBSP. *)
Definition isWhiteSpace (c : ascii) : bool :=
  let n := N_of_ascii c in
  ((9 <=? n) && (n <=? 13) || (n =? 32) || (n =? 160))%N.

Fixpoint trimStart (s : string) : string :=
  match s with
  | String c rest => if isWhiteSpace c then trimStart rest else s
  | EmptyString => EmptyString
  end.

(** The value of [c] as a digit in radix [R], if it is one. *)
Definition digitValue (R : N) (c : ascii) : option N :=
  let n := N_of_ascii c in
  let d :=
    (if (48 <=? n) && (n <=? 57) then Some (n - 48)
     else if (97 <=? n) && (n <=? 122) then Some (n - 87)
     else if (65 <=? n) && (n <=? 90) then Some (n - 55)
     else None)%N in
  match d with
  | Some v => if (v <? R)%N then Some v else None
  | None => None
  end.

(** The integer written by the longest prefix of [s] made of radix-[R]
    digits, continuing from the digits already read ([acc]); [None] when no
    digit has been read at all. *)
Fixpoint leadingDigits (R : N) (s : string) (acc : option N) : option N :=
  match s with
  | String c rest =>
      match digitValue R c with
      | Some v => leadingDigits R rest (Some (default 0%N acc * R + v)%N)
      | None => acc
      end
  | EmptyString => acc
  end.

(** The sign: a leading "-" or "+" is taken off, and "-" makes the
    result negative. *)
Definition stripSign (s : string) : bool * string :=
  match s with
  | String c rest =>
      if Ascii.eqb c "-" then (true, rest)
      else if Ascii.eqb c "+" then (false, rest)
      else (false, s)
  | EmptyString => (false, s)
  end.

(** The radix: 16 after a leading "0x" or "0X", which is taken off, and 10
    otherwise. *)
Definition stripPrefix (s : string) : N * string :=
  match s with
  | String c (String x rest) =>
      if Ascii.eqb c "0" && (Ascii.eqb x "x" || Ascii.eqb x "X")
      then (16%N, rest)
      else (10%N, s)
  | _ => (10%N, s)
  end.

(** [parseInt(string)] with no radix argument: the Number value of the
    integer the leading digits write, with the sign. *)
Definition parseInt (input : string) : number :=
  let '(negative, str) := stripSign (trimStart input) in
  let '(R, str) := stripPrefix str in
  match leadingDigits R str None with
  | None => NaN
  | Some 0%N => if negative then NegZero else Num 0
  | Some m =>
      match nearestDouble m with
      | Some v => Num (if negative then - Z.of_N v else Z.of_N v)
      | None => Infinity negative
      end
  end.

(** Date.now() and a timestamp printed in a template string. *)
Definition showN (n : N) : string := NilEmpty.string_of_uint (N.to_uint n).

End JS.

Import JS.

(* ===================================================================== *)
(** ** What the runtime provides *)
(* ===================================================================== *)

(** The [mongodb] package's [ObjectId], node's [__dirname] and [path.join],
    node's policy for unhandled promise rejections and what Express does
    with a handler whose promise is rejected are not part of the repository:
    they are parameters of the development.  [ObjectId s] is
    [new ObjectId(s)], which throws ([None]) on a string it cannot parse.
    [path_join dir file] is [path.join(dir, file)], which normalises its
    result ("." and ".." segments, repeated separators) in the way of the
    platform.  Express 5 forwards a rejected handler promise to its own
    error handling; Express 4 leaves the rejection unhandled. *)
Class Runtime : Type := {
  oid : Type;
  oid_eq_dec :: EqDecision oid;
  ObjectId : string → option oid;
  __dirname : string;
  path_join : string → string → string;
  unhandled_rejections_throw : bool;
  express_forwards_rejections : bool;
}.

Inductive error : Type :=
| TypeError (message : string)
| BSONError (message : string)
| MongoNetworkError (message : string)
| MongoServerError (message : string)
| SystemError (code : string) (message : string)
| MulterError (code : string) (message : string)
| Error (message : string).

Definition error_message (e : error) : string :=
  match e with
  | TypeError m | BSONError m | MongoNetworkError m | MongoServerError m
  | SystemError _ m | MulterError _ m | Error m => m
  end.

Section store.
Context `{Runtime}.

(* ===================================================================== *)
(** ** The [users] collection and the disk *)
(* ===================================================================== *)

(** A document of [registrationDB.users], as [insertOne] is given it plus the
    [_id] the driver adds.  The two screenshot properties are [undefined] in
    documents of the first version. *)
Record document : Type := {
  _id : oid;
  name : field;
  email : field;
  phone : field;
  age : number;
  gender : field;
  experience : field;
  participation : field;
  paymentScreenshot : field;
  paymentScreenshotPath : field;
  registeredAt : N;
}.

Inductive key : Type := k_email | k_gender | k_experience | k_participation.

Definition get (k : key) (d : document) : field :=
  match k with
  | k_email => email d
  | k_gender => gender d
  | k_experience => experience d
  | k_participation => participation d
  end.

(** The query documents the handlers build. *)
Inductive filter : Type :=
| f_all                                  (* no argument *)
| f_id (i : oid)                         (* { _id: i } *)
| f_eq (k : key) (v : field)             (* { k: v } *)
| f_in (k : key) (vs : list string).     (* { k: { $in: vs } } *)

Definition matches (q : filter) (d : document) : bool :=
  match q with
  | f_all => true
  | f_id i => bool_decide (_id d = i)
  | f_eq k v => bool_decide (get k d = v)
  | f_in k vs => bool_decide (get k d ∈ text <$> vs)
  end.

(** Remove the first element that satisfies [f] ([deleteOne]). *)
Fixpoint remove_first {A} (f : A → bool) (l : list A) : list A :=
  match l with
  | [] => []
  | x :: l' => if f x then l' else x :: remove_first f l'
  end.

(** [db.collection("users")], the value assigned to [usersCollection]. *)
Inductive collection : Type := registrationDB_users.

(** The module-level variable [usersCollection] ([None] while it is still
    [undefined]), whether the store answers, the stored documents in
    natural order, and the paths that exist on disk. *)
Record server : Type := {
  usersCollection : option collection;
  online : bool;
  users : list document;
  disk : gset string;
}.

Definition set_users (l : list document) (s : server) : server :=
  {| usersCollection := usersCollection s; online := online s;
     users := l; disk := disk s |}.

Definition set_disk (d : gset string) (s : server) : server :=
  {| usersCollection := usersCollection s; online := online s;
     users := users s; disk := d |}.

Definition set_usersCollection (c : option collection) (s : server) : server :=
  {| usersCollection := c; online := online s;
     users := users s; disk := disk s |}.

(* ===================================================================== *)
(** ** Handlers as programs over driver and [fs] calls *)
(* ===================================================================== *)

(** [findOne] and [deleteOne] take their argument as its evaluation leaves
    it: the query, or the error thrown while building it. *)
Inductive call : Type → Type :=
| findOne (q : error + filter) : call (option document)
| insertOne (d : document) : call unit
| deleteOne (q : error + filter) : call unit
| find_toArray : call (list document)
| countDocuments (q : filter) : call nat
| unlinkSync (p : string) : call unit
| existsSync (p : string) : call bool.

(** The [fs] calls return at once; the driver calls return a promise that the
    handler awaits, unless they throw before the driver is reached: while
    [usersCollection] is undefined, or on an argument that throws. *)
Definition is_sync {A} (c : call A) : bool :=
  match c with
  | unlinkSync _ | existsSync _ => true
  | _ => false
  end.

Definition throws_at_once {A} (c : call A) (s : server) : bool :=
  bool_decide (usersCollection s = None)
  || match c with
     | findOne (inl _) | deleteOne (inl _) => true
     | _ => false
     end.

(** [{ _id: new ObjectId(id) }] *)
Definition by_id (id : string) : error + filter :=
  match ObjectId id with
  | Some i => inr (f_id i)
  | None => inl (BSONError "input must be a 24 character hex string")
  end.

(** A method call [usersCollection.method(arg)]: reading the method off the
    variable throws a [TypeError] while it is [undefined]; then the argument
    is evaluated; then the driver is called, and its promise is rejected
    while the store does not answer. *)
Definition on_collection {A B} (method : string) (s : server)
    (arg : error + B) (act : B → (error + A) * server)
    : (error + A) * server :=
  match usersCollection s with
  | None =>
      (inl (TypeError ("Cannot read properties of undefined (reading '"
                         ++ method ++ "')")), s)
  | Some _ =>
      match arg with
      | inl e => (inl e, s)
      | inr b =>
          if online s then act b
          else (inl (MongoNetworkError "connection closed"), s)
      end
  end.

Definition perform {A} (c : call A) (s : server) : (error + A) * server :=
  match c in call A return (error + A) * server with
  | findOne q =>
      on_collection "findOne" s q
        (λ q, (inr (head (List.filter (matches q) (users s))), s))
  | insertOne d =>
      on_collection "insertOne" s (inr d)
        (λ d, if bool_decide (_id d ∈ _id <$> users s)
              then (inl (MongoServerError "E11000 duplicate key error"), s)
              else (inr tt, set_users (users s ++ [d]) s))
  | deleteOne q =>
      on_collection "deleteOne" s q
        (λ q, (inr tt, set_users (remove_first (matches q) (users s)) s))
  | find_toArray =>
      on_collection "find" s (inr tt) (λ _, (inr (users s), s))
  | countDocuments q =>
      on_collection "countDocuments" s (inr q)
        (λ q, (inr (length (List.filter (matches q) (users s))), s))
  | unlinkSync p =>
      if bool_decide (p ∈ disk s)
      then (inr tt, set_disk (disk s ∖ {[p]}) s)
      else (inl (SystemError "ENOENT" "no such file or directory"), s)
  | existsSync p =>
      (inr (bool_decide (p ∈ disk s)), s)
  end.

(** A handler body: it returns, throws, or makes a call and goes on with the
    call's result (a value, or the error the call throws or rejects with). *)
Inductive prog (R : Type) : Type :=
| Ret (r : R)
| Throw (e : error)
| Vis {A : Type} (c : call A) (k : error + A → prog R).

Arguments Ret {R} r.
Arguments Throw {R} e.
Arguments Vis {R A} c k.

Fixpoint bind {R T} (p : prog R) (f : R → prog T) : prog T :=
  match p with
  | Ret r => f r
  | Throw e => Throw e
  | Vis c k => Vis c (λ r, bind (k r) f)
  end.

(** [await c] (or plain [c] for an [fs] call): an error propagates. *)
Definition await {A} (c : call A) : prog A :=
  Vis c (λ r, match r with inl e => Throw e | inr a => Ret a end).

(** [try { p } catch (error) { h error }] *)
Fixpoint try_catch {R} (p : prog R) (h : error → prog R) : prog R :=
  match p with
  | Ret r => Ret r
  | Throw e => h e
  | Vis c k => Vis c (λ r, try_catch (k r) h)
  end.

(** How a handler ends: it has answered, or its promise is rejected with no
    answer sent. *)
Inductive outcome (R : Type) : Type :=
| Returned (r : R)
| Rejected (e : error).

Arguments Returned {R} r.
Arguments Rejected {R} e.

(** A handler run from start to end with no other handler in between. *)
Fixpoint run {R} (p : prog R) (s : server) : outcome R * server :=
  match p with
  | Ret r => (Returned r, s)
  | Throw e => (Rejected e, s)
  | Vis c k => let '(r, s') := perform c s in run (k r) s'
  end.

(** Handlers in flight.  A handler runs until its next awaited call;
    [settle] runs what comes before that call (the [fs] calls, and a driver
    call that throws at once), [resume] answers the awaited call and runs on
    to the next one. *)
Fixpoint settle {R} (p : prog R) (s : server) : prog R * server :=
  match p with
  | Vis c k =>
      if is_sync c || throws_at_once c s
      then let '(r, s') := perform c s in settle (k r) s'
      else (p, s)
  | _ => (p, s)
  end.

Definition resume {R} (p : prog R) (s : server) : prog R * server :=
  match p with
  | Vis c k => let '(r, s') := perform c s in settle (k r) s'
  | _ => (p, s)
  end.

(** The handlers in flight, and a schedule: the index of the handler whose
    awaited call is answered next. *)
Fixpoint interleave {R} (schedule : list nat) (pool : list (prog R))
    (s : server) : list (prog R) * server :=
  match schedule with
  | [] => (pool, s)
  | i :: rest =>
      match pool !! i with
      | Some p =>
          let '(p', s') := resume p s in
          interleave rest (<[i := p']> pool) s'
      | None => interleave rest pool s
      end
  end.

(** What a handler sends. *)
Record stats : Type := {
  total : nat;
  male : nat;
  female : nat;
  beginners : nat;
  competition : nat;
  workshop : nat;
}.

Inductive json : Type :=
| message (m : string)
| documents (l : list document)
| statistics (st : stats)
| health.

Record response : Type := {
  status : nat;
  sent : json;
}.

(** [res.json(j)] and [res.status(n).json(j)] *)
Definition res_json (j : json) : response := {| status := 200; sent := j |}.
Definition res_status_json (n : nat) (j : json) : response :=
  {| status := n; sent := j |}.

End store.

Arguments Ret {_ R} r.
Arguments Throw {_ R} e.
Arguments Vis {_ R A} c k.
Arguments Returned {R} r.
Arguments Rejected {R} e.

#[export] Instance prog_bind `{Runtime} : MBind prog := λ _ _ f p, bind p f.
#[export] Instance prog_ret `{Runtime} : MRet prog := λ _ r, Ret r.

(** [req.body] of POST /register. *)
Module Form.
Record t : Type := {
  name : field;
  email : field;
  phone : field;
  age : field;
  gender : field;
  experience : field;
  participation : field;
}.
End Form.

(** The file part of a multipart request as multer reads it, and [req.file]
    once the disk storage has written it. *)
Record part : Type := {
  originalname : string;
  mimetype : string;
  size : N;
}.

Record file : Type := {
  filename : string;
  path : string;
}.

(** The circumstances of one POST /register that the form and the file
    part do not fix: the value of [Date.now()] when the upload is named;
    [req.body.phone] as it is when the file part arrives (the phone of the
    form if that field precedes the file part in the request, [undefined] if
    it follows); the error the disk storage's write ends with, if it does
    (a directory of the path that does not exist, a full disk); the [_id]
    the driver gives the new document; and [new Date()] at the insert. *)
Record ambient `{Runtime} : Type := {
  Date_now : N;
  body_phone : field;
  write_error : option error;
  new_ObjectId : oid;
  new_Date : N;
}.

Inductive request `{Runtime} : Type :=
| POST_register (b : Form.t) (upload : option part) (a : ambient)
| GET_users
| GET_stats
| DELETE_users (id : string)
| GET_root.

(** The Node process: its exit code once it has exited, whether
    [client.connect()] is still pending, and the server state. *)
Record node `{Runtime} : Type := {
  exited : option nat;
  connecting : bool;
  srv : server;
}.

Inductive event `{Runtime} : Type :=
| connect_resolves
| connect_rejects (e : error)
| arrives (r : request).

(* ===================================================================== *)
(** ** First version (lines 1-85) *)
(* ===================================================================== *)

Module V1.
Section handlers.
Context `{Runtime}.

(** app.post("/register", ...) *)
Definition post_register (b : Form.t) (a : ambient) : prog response :=
  let name := Form.name b in
  let email := Form.email b in
  let phone := Form.phone b in
  let age := Form.age b in
  let gender := Form.gender b in
  let experience := Form.experience b in
  let participation := Form.participation b in
  if negb (truthy name) || negb (truthy email) || negb (truthy phone)
     || negb (truthy age) || negb (truthy gender)
     || negb (truthy experience) || negb (truthy participation)
  then Ret (res_status_json 400 (message "All fields are required"))
  else
    existing ← await (findOne (inr (f_eq k_email email)));
    if existing is Some _
    then Ret (res_json (message "User already registered with this email"))
    else
      _ ← await (insertOne {|
             _id := new_ObjectId a;
             name := name;
             email := email;
             phone := phone;
             age := parseInt (ToString age);
             gender := gender;
             experience := experience;
             participation := participation;
             paymentScreenshot := undefined;
             paymentScreenshotPath := undefined;
             registeredAt := new_Date a |});
      Ret (res_json
             (message "Registration successful! See you at the festival!")).

(** app.get("/users", ...) *)
Definition get_users : prog response :=
  users ← await find_toArray;
  Ret (res_json (documents users)).

(** app.get("/stats", ...) *)
Definition get_stats : prog response :=
  total ← await (countDocuments f_all);
  male ← await (countDocuments (f_eq k_gender (text "male")));
  female ← await (countDocuments (f_eq k_gender (text "female")));
  beginners ← await (countDocuments (f_eq k_experience (text "beginner")));
  competition ←
    await (countDocuments (f_in k_participation ["competition"; "both"]));
  workshop ←
    await (countDocuments (f_in k_participation ["workshop"; "both"]));
  Ret (res_json (statistics {|
         total := total; male := male; female := female;
         beginners := beginners; competition := competition;
         workshop := workshop |})).

(** app.delete("/users/:id", ...) *)
Definition delete_user (id : string) : prog response :=
  _ ← await (deleteOne (by_id id));
  Ret (res_json (message "User deleted successfully")).

(** The route table.  This version has no [GET /] route and reads no file
    part. *)
Definition route (r : request) : option (prog response) :=
  match r with
  | POST_register b _ a => Some (post_register b a)
  | GET_users => Some get_users
  | GET_stats => Some get_stats
  | DELETE_users id => Some (delete_user id)
  | GET_root => None
  end.

(** A promise rejected with nobody to catch it: the process dies when the
    runtime is in its throwing mode, and goes on otherwise. *)
Definition unhandled_rejection (n : node) : node :=
  if unhandled_rejections_throw
  then {| exited := Some 1; connecting := connecting n; srv := srv n |}
  else n.

(** [connectDB()] once [client.connect()] has settled: nothing catches a
    rejection. *)
Definition connectDB (settled : option error) (n : node) : node :=
  match settled with
  | None =>
      {| exited := exited n; connecting := false;
         srv := set_usersCollection (Some registrationDB_users) (srv n) |}
  | Some e =>
      unhandled_rejection
        {| exited := exited n; connecting := false; srv := srv n |}
  end.

(** One event of the process.  A request whose handler's promise is
    rejected gets no answer from the handler, and the rejection is
    unhandled unless Express takes it. *)
Definition step (ev : event) (n : node) : node * option (outcome response) :=
  match exited n with
  | Some _ => (n, None)
  | None =>
      match ev with
      | connect_resolves =>
          if connecting n then (connectDB None n, None) else (n, None)
      | connect_rejects e =>
          if connecting n then (connectDB (Some e) n, None) else (n, None)
      | arrives r =>
          match route r with
          | None => (n, None)
          | Some p =>
              let '(o, s') := run p (srv n) in
              let n' :=
                {| exited := None; connecting := connecting n; srv := s' |} in
              (match o with
               | Rejected _ =>
                   if express_forwards_rejections then n'
                   else unhandled_rejection n'
               | Returned _ => n'
               end, Some o)
          end
      end
  end.

End handlers.
End V1.

(* ===================================================================== *)
(** ** Second version (lines 85-303) *)
(* ===================================================================== *)

Module V2.
Section handlers.
Context `{Runtime}.

(** The CORS configuration: [allowedOrigins], with [process.env.FRONTEND_URL]
    as it is set, [Array.prototype.indexOf] on it, and the [origin] function,
    whose answer is what it hands to [callback]. *)
Definition allowedOrigins (FRONTEND_URL : field) : list field :=
  [text "http://localhost:3000"; text "http://localhost:5173"; FRONTEND_URL;
   text "https://your-app.vercel.app"].

Fixpoint indexOf (l : list field) (x : field) : Z :=
  match l with
  | [] => -1
  | y :: l' =>
      if bool_decide (y = x) then 0
      else let i := indexOf l' x in if (i =? -1)%Z then -1 else (i + 1)%Z
  end.

Definition cors_origin (FRONTEND_URL : field) (origin : field)
    : error + bool :=
  if negb (truthy origin) then inr true
  else if (indexOf (allowedOrigins FRONTEND_URL) origin =? -1)%Z then inr true
  else inr true.

Definition paymentsDir : string := path_join __dirname "payments".

(** storage: [filename], called when the file part arrives; [req.body]
    holds the fields read so far. *)
Definition storage_filename (a : ambient) (f : part) : string :=
  showN (Date_now a) ++ "_" ++ ToString (body_phone a) ++ "_" ++ originalname f.

(** [cb(null, true)] or [cb(new Error(...), false)] *)
Definition fileFilter (f : part) : error + bool :=
  if String.prefix "image/" (mimetype f)
  then inr true
  else inl (Error "Only image files are allowed!").

Definition limits_fileSize : N := 5 * 1024 * 1024.

(** upload.single("paymentScreenshot"): no file part leaves [req.file]
    undefined; a file the filter refuses is an error before the storage is
    reached.  The disk storage names the file, joins the name to the
    destination with [path.join] and writes there; a write that fails
    (opening the path does, when a directory of it is missing) and a file
    beyond the size limit are errors, with nothing left on disk.  An error
    is handed to the error middleware; otherwise the file is on disk when
    the handler starts. *)
Definition upload_single (upload : option part) (a : ambient) (s : server)
    : (error + option file) * server :=
  match upload with
  | None => (inr None, s)
  | Some f =>
      match fileFilter f with
      | inl e => (inl e, s)
      | inr false => (inr None, s)
      | inr true =>
          let uniqueName := storage_filename a f in
          let p := path_join paymentsDir uniqueName in
          match write_error a with
          | Some e => (inl e, s)
          | None =>
              if (limits_fileSize <? size f)%N
              then (inl (MulterError "LIMIT_FILE_SIZE" "File too large"), s)
              else
                (inr (Some {| filename := uniqueName; path := p |}),
                 set_disk ({[p]} ∪ disk s) s)
          end
      end
  end.

(** app.get("/", ...) *)
Definition get_root : prog response := Ret (res_json health).

(** app.post("/register", upload.single("paymentScreenshot"), ...): the
    handler, given [req.body] and [req.file]. *)
Definition register (b : Form.t) (req_file : option file) (a : ambient)
    : prog response :=
  try_catch
    (let name := Form.name b in
     let email := Form.email b in
     let phone := Form.phone b in
     let age := Form.age b in
     let gender := Form.gender b in
     let experience := Form.experience b in
     let participation := Form.participation b in
     if negb (truthy name) || negb (truthy email) || negb (truthy phone)
        || negb (truthy age) || negb (truthy gender)
        || negb (truthy experience) || negb (truthy participation)
     then Ret (res_status_json 400 (message "All fields are required"))
     else
       match req_file with
       | None =>
           Ret (res_status_json 400 (message "Payment screenshot is required"))
       | Some req_file =>
           existing ← await (findOne (inr (f_eq k_email email)));
           if existing is Some _
           then
             _ ← await (unlinkSync (path req_file));
             Ret (res_status_json 400
                    (message "User already registered with this email"))
           else
             _ ← await (insertOne {|
                    _id := new_ObjectId a;
                    name := name;
                    email := email;
                    phone := phone;
                    age := parseInt (ToString age);
                    gender := gender;
                    experience := experience;
                    participation := participation;
                    paymentScreenshot := text (filename req_file);
                    paymentScreenshotPath := text (path req_file);
                    registeredAt := new_Date a |});
             Ret (res_json (message
               "Registration successful! Payment verification in progress. See you at the festival!"))
       end)
    (λ error,
       Ret (res_status_json 500
              (message ("Registration failed: " ++ error_message error)))).

(** app.get("/users", ...) *)
Definition get_users : prog response :=
  try_catch
    (users ← await find_toArray;
     Ret (res_json (documents users)))
    (λ error, Ret (res_status_json 500 (message "Failed to fetch users"))).

(** app.get("/stats", ...) *)
Definition get_stats : prog response :=
  try_catch
    (total ← await (countDocuments f_all);
     male ← await (countDocuments (f_eq k_gender (text "male")));
     female ← await (countDocuments (f_eq k_gender (text "female")));
     beginners ← await (countDocuments (f_eq k_experience (text "beginner")));
     competition ←
       await (countDocuments (f_in k_participation ["competition"; "both"]));
     workshop ←
       await (countDocuments (f_in k_participation ["workshop"; "both"]));
     Ret (res_json (statistics {|
            total := total; male := male; female := female;
            beginners := beginners; competition := competition;
            workshop := workshop |})))
    (λ error,
       Ret (res_status_json 500 (message "Failed to fetch statistics"))).

(** app.delete("/users/:id", ...) *)
Definition delete_user (id : string) : prog response :=
  try_catch
    (user ← await (findOne (by_id id));
     _ ← (match user with
          | Some user =>
              if truthy (paymentScreenshotPath user)
              then
                there ← await
                  (existsSync (ToString (paymentScreenshotPath user)));
                if there : bool
                then await (unlinkSync (ToString (paymentScreenshotPath user)))
                else Ret tt
              else Ret tt
          | None => Ret tt
          end);
     _ ← await (deleteOne (by_id id));
     Ret (res_json (message "User deleted successfully")))
    (λ error, Ret (res_status_json 500 (message "Failed to delete user"))).

(** The error-handling middleware (the [next()] branch, for no error, is
    never taken with an error at hand). *)
Definition error_middleware (error : error) : response :=
  match error with
  | MulterError code m =>
      if String.eqb code "LIMIT_FILE_SIZE"
      then res_status_json 400
             (message "File size is too large. Maximum size is 5MB.")
      else res_status_json 400 (message m)
  | _ => res_status_json 400 (message (error_message error))
  end.

(** POST /register from the upload middleware on. *)
Definition post_register (b : Form.t) (upload : option part) (a : ambient)
    (s : server) : outcome response * server :=
  match upload_single upload a s with
  | (inl e, s') => (Returned (error_middleware e), s')
  | (inr req_file, s') => run (register b req_file a) s'
  end.

Definition handle (r : request) (s : server) : outcome response * server :=
  match r with
  | POST_register b upload a => post_register b upload a s
  | GET_users => run get_users s
  | GET_stats => run get_stats s
  | DELETE_users id => run (delete_user id) s
  | GET_root => run get_root s
  end.

(** [connectDB()] once [client.connect()] has settled: the [catch] branch
    calls [process.exit(1)]. *)
Definition connectDB (settled : option error) (n : node) : node :=
  match settled with
  | None =>
      {| exited := exited n; connecting := false;
         srv := set_usersCollection (Some registrationDB_users) (srv n) |}
  | Some e =>
      {| exited := Some 1; connecting := false; srv := srv n |}
  end.

Definition step (ev : event) (n : node) : node * option (outcome response) :=
  match exited n with
  | Some _ => (n, None)
  | None =>
      match ev with
      | connect_resolves =>
          if connecting n then (connectDB None n, None) else (n, None)
      | connect_rejects e =>
          if connecting n then (connectDB (Some e) n, None) else (n, None)
      | arrives r =>
          let '(o, s') := handle r (srv n) in
          ({| exited := None; connecting := connecting n; srv := s' |}, Some o)
      end
  end.

End handlers.
End V2.

(** The process as the module's top level leaves it: [connectDB()] has been
    called and not awaited, [app.listen] has been called, and
    [usersCollection] is still undefined. *)
Definition boot `{Runtime} (up : bool) (stored : list document)
    (files : gset string) : node :=
  {| exited := None; connecting := true;
     srv := {| usersCollection := None; online := up;
               users := stored; disk := files |} |}.

(** A run of events, with what each was answered. *)
Fixpoint steps `{Runtime}
    (step : event → node → node * option (outcome response))
    (evs : list event) (n : node)
    : node * list (option (outcome response)) :=
  match evs with
  | [] => (n, [])
  | ev :: rest =>
      let '(n', o) := step ev n in
      let '(n'', os) := steps step rest n' in
      (n'', o :: os)
  end.

(* ===================================================================== *)
(** ** A concrete runtime and concrete requests, for the examples *)
(* ===================================================================== *)

Definition isHexDigit (c : ascii) : bool :=
  if digitValue 16 c is Some _ then true else false.

Definition toLowerCase (c : ascii) : ascii :=
  let n := N_of_ascii c in
  if ((65 <=? n) && (n <=? 90))%N then ascii_of_N (n + 32) else c.

(** [new ObjectId(s)] for a string of 24 hexadecimal digits; the identifier
    is kept as its lower-case text. *)
Definition ObjectId_hex (s : string) : option string :=
  let cs := list_ascii_of_string s in
  if (length cs =? 24)%nat && forallb isHexDigit cs
  then Some (string_of_list_ascii (List.map toLowerCase cs))
  else None.

(** [path.join] on a POSIX platform, for two arguments.  The arguments that
    are not empty are put together with a "/" between them and the result
    is normalised: split at "/", empty and "." segments dropped, a ".."
    segment taking back the segment before it (above the start of a
    relative path it stays; above the root it is dropped), and a leading and
    a trailing "/" kept. *)
Fixpoint segments (s : string) : list string :=
  match s with
  | EmptyString => [EmptyString]
  | String c rest =>
      if Ascii.eqb c "/" then EmptyString :: segments rest
      else
        match segments rest with
        | seg :: more => String c seg :: more
        | [] => [String c EmptyString]
        end
  end.

(** The segments kept so far are in [res], the last one first. *)
Fixpoint normalizeSegments (allowAboveRoot : bool) (segs res : list string)
    : list string :=
  match segs with
  | [] => List.rev res
  | seg :: more =>
      if String.eqb seg "" || String.eqb seg "."
      then normalizeSegments allowAboveRoot more res
      else if String.eqb seg ".."
      then
        match res with
        | top :: below =>
            if negb (String.eqb top "..")
            then normalizeSegments allowAboveRoot more below
            else if allowAboveRoot
            then normalizeSegments allowAboveRoot more (seg :: res)
            else normalizeSegments allowAboveRoot more res
        | [] =>
            if allowAboveRoot
            then normalizeSegments allowAboveRoot more [seg]
            else normalizeSegments allowAboveRoot more []
        end
      else normalizeSegments allowAboveRoot more (seg :: res)
  end.

Fixpoint endsWithSeparator (s : string) : bool :=
  match s with
  | EmptyString => false
  | String c EmptyString => Ascii.eqb c "/"
  | String _ rest => endsWithSeparator rest
  end.

Definition posix_normalize (p : string) : string :=
  if String.eqb p "" then "."
  else
    let isAbsolute := String.prefix "/" p in
    let trailingSeparator := endsWithSeparator p in
    let body :=
      String.concat "/" (normalizeSegments (negb isAbsolute) (segments p) []) in
    if String.eqb body ""
    then if isAbsolute then "/" else if trailingSeparator then "./" else "."
    else (if isAbsolute then "/" else "") ++ body
         ++ (if trailingSeparator then "/" else "").

Definition posix_join (dir file : string) : string :=
  if String.eqb dir ""
  then if String.eqb file "" then "." else posix_normalize file
  else if String.eqb file "" then posix_normalize dir
  else posix_normalize (dir ++ "/" ++ file).

Definition node_runtime : Runtime := {|
  oid := string;
  ObjectId := ObjectId_hex;
  __dirname := "/srv/app";
  path_join := posix_join;
  unhandled_rejections_throw := true;
  express_forwards_rejections := false;
|}.

(** The same runtime with unhandled rejections only warned about (node
    before version 15, or --unhandled-rejections=warn). *)
Definition warning_runtime : Runtime := {|
  oid := string;
  ObjectId := ObjectId_hex;
  __dirname := "/srv/app";
  path_join := posix_join;
  unhandled_rejections_throw := false;
  express_forwards_rejections := false;
|}.

Module Sample.
Section sample.
#[local] Existing Instance node_runtime.

Definition ana : Form.t := {|
  Form.name := text "Ana"; Form.email := text "a@x.com";
  Form.phone := text "555"; Form.age := text "24";
  Form.gender := text "female"; Form.experience := text "beginner";
  Form.participation := text "both" |}.

Definition with_name (v : field) (b : Form.t) : Form.t := {|
  Form.name := v; Form.email := Form.email b;
  Form.phone := Form.phone b; Form.age := Form.age b;
  Form.gender := Form.gender b; Form.experience := Form.experience b;
  Form.participation := Form.participation b |}.

Definition with_email (v : field) (b : Form.t) : Form.t := {|
  Form.name := Form.name b; Form.email := v;
  Form.phone := Form.phone b; Form.age := Form.age b;
  Form.gender := Form.gender b; Form.experience := Form.experience b;
  Form.participation := Form.participation b |}.


Definition with_phone (v : field) (b : Form.t) : Form.t := {|
  Form.name := Form.name b; Form.email := Form.email b;
  Form.phone := v; Form.age := Form.age b;
  Form.gender := Form.gender b; Form.experience := Form.experience b;
  Form.participation := Form.participation b |}.

Definition with_participation (v : field) (b : Form.t) : Form.t := {|
  Form.name := Form.name b; Form.email := Form.email b;
  Form.phone := Form.phone b; Form.age := Form.age b;
  Form.gender := Form.gender b; Form.experience := Form.experience b;
  Form.participation := v |}.


Definition id1 : string := "64b7f0c2a1d3e4f5a6b7c8d9".
Definition id2 : string := "64b7f0c2a1d3e4f5a6b7c8da".

(** Two requests whose phone field precedes the file part and whose upload
    is written. *)
Definition first : ambient :=
  {| Date_now := 1700000000000; body_phone := text "555";
     write_error := None; new_ObjectId := id1;
     new_Date := 1700000000100 |}.
Definition second : ambient :=
  {| Date_now := 1700000005000; body_phone := text "555";
     write_error := None; new_ObjectId := id2;
     new_Date := 1700000005100 |}.

(** A request whose new [_id] is one already given out. *)
Definition clash : ambient :=
  {| Date_now := 1700000005000; body_phone := text "555";
     write_error := None; new_ObjectId := id1;
     new_Date := 1700000005100 |}.

Definition receipt : part :=
  {| originalname := "pay.png"; mimetype := "image/png"; size := 2048 |}.

Definition receipt_path : string :=
  "/srv/app/payments/1700000005000_555_pay.png".

(** A connected server with nothing stored and an empty disk. *)
Definition fresh : server :=
  {| usersCollection := Some registrationDB_users; online := true;
     users := []; disk := ∅ |}.

(** Ana as the first version stores her, and as the second one does. *)
Definition ana_doc : document := {|
  _id := id1; name := text "Ana"; email := text "a@x.com";
  phone := text "555"; age := Num 24; gender := text "female";
  experience := text "beginner"; participation := text "both";
  paymentScreenshot := undefined; paymentScreenshotPath := undefined;
  registeredAt := 1700000000100 |}.

Definition ana_paid : document := {|
  _id := id1; name := text "Ana"; email := text "a@x.com";
  phone := text "555"; age := Num 24; gender := text "female";
  experience := text "beginner"; participation := text "both";
  paymentScreenshot := text "1700000000000_555_pay.png";
  paymentScreenshotPath :=
    text "/srv/app/payments/1700000000000_555_pay.png";
  registeredAt := 1700000000100 |}.

Definition with_ana : server := set_users [ana_doc] fresh.

Definition with_ana_paid : server :=
  {| usersCollection := Some registrationDB_users; online := true;
     users := [ana_paid];
     disk := {["/srv/app/payments/1700000000000_555_pay.png"]} |}.

(** Ana with a phone that [path.join] reads as path segments: whatever
    the time of the request, her upload is written at [dots_path].  Her
    first registration is stored, with its screenshot on the disk. *)
Definition dots : Form.t := with_phone (text "a/../x") ana.

Definition dots_first : ambient :=
  {| Date_now := 1700000000000; body_phone := text "a/../x";
     write_error := None; new_ObjectId := id1;
     new_Date := 1700000000100 |}.
Definition dots_second : ambient :=
  {| Date_now := 1700000005000; body_phone := text "a/../x";
     write_error := None; new_ObjectId := id2;
     new_Date := 1700000005100 |}.

Definition dots_path : string := "/srv/app/payments/x_pay.png".


Definition dots_paid : document := {|
  _id := id1; name := text "Ana"; email := text "a@x.com";
  phone := text "a/../x"; age := Num 24; gender := text "female";
  experience := text "beginner"; participation := text "both";
  paymentScreenshot := text "1700000000000_a/../x_pay.png";
  paymentScreenshotPath := text dots_path;
  registeredAt := 1700000000100 |}.

Definition with_dots_paid : server :=
  {| usersCollection := Some registrationDB_users; online := true;
     users := [dots_paid]; disk := {[dots_path]} |}.

End sample.
End Sample.

(* ===================================================================== *)
(** ** Properties the statements are written with *)
(* ===================================================================== *)

Section properties.
Context `{Runtime}.

Definition required (b : Form.t) : list field :=
  [Form.name b; Form.email b; Form.phone b; Form.age b; Form.gender b;
   Form.experience b; Form.participation b].

(** A field that is missing or empty. *)
Definition missing_or_empty (v : field) : Prop :=
  v = undefined ∨ v = text "".

(** The store answers: [usersCollection] is assigned and the connection is
    up. *)
Definition serving (s : server) : Prop :=
  usersCollection s = Some registrationDB_users ∧ online s = true.

(** At most one document per email. *)
Definition one_per_email (s : server) : Prop := NoDup (email <$> users s).

(** No two documents share an [_id] (the store's unique index). *)
Definition ids_unique (s : server) : Prop := NoDup (_id <$> users s).

Definition stored (i : oid) (s : server) : Prop := i ∈ _id <$> users s.

(** Every required field is a non-empty string. *)
Definition complete (b : Form.t) : Prop :=
  Forall (λ v, truthy v = true) (required b).

(** The email of the form already has a document. *)
Definition registered (b : Form.t) (s : server) : Prop :=
  Form.email b ∈ email <$> users s.

(** The document the first version inserts for a form, and the one the
    second version inserts for a form and its uploaded file. *)
Definition V1_document (b : Form.t) (a : ambient) : document := {|
  _id := new_ObjectId a;
  name := Form.name b;
  email := Form.email b;
  phone := Form.phone b;
  age := parseInt (ToString (Form.age b));
  gender := Form.gender b;
  experience := Form.experience b;
  participation := Form.participation b;
  paymentScreenshot := undefined;
  paymentScreenshotPath := undefined;
  registeredAt := new_Date a |}.

Definition V2_document (b : Form.t) (f : file) (a : ambient) : document := {|
  _id := new_ObjectId a;
  name := Form.name b;
  email := Form.email b;
  phone := Form.phone b;
  age := parseInt (ToString (Form.age b));
  gender := Form.gender b;
  experience := Form.experience b;
  participation := Form.participation b;
  paymentScreenshot := text (filename f);
  paymentScreenshotPath := text (path f);
  registeredAt := new_Date a |}.

(** [req.file] for an upload that is written: the name the storage gives
    it and the path [path.join] makes of the destination and that name. *)
Definition stored_file (f : part) (a : ambient) : file :=
  let uniqueName := V2.storage_filename a f in
  {| filename := uniqueName; path := path_join V2.paymentsDir uniqueName |}.

(** How the stored documents can differ across one request: not at all, by
    one document appended (one of those [Q] allows) whose email and [_id]
    were both unused, or by the first match of a query removed. *)
Inductive change (Q : document → Prop)
    : list document → list document → Prop :=
| change_none l : change Q l l
| change_insert l d :
    Q d → email d ∉ email <$> l → _id d ∉ _id <$> l →
    change Q l (l ++ [d])
| change_delete l q : change Q l (remove_first (matches q) l).

(** The document an event can insert, in each version. *)
Definition origin_V1 (ev : event) (d : document) : Prop :=
  ∃ b upload a, ev = arrives (POST_register b upload a)
                ∧ d = V1_document b a.

Definition origin_V2 (ev : event) (d : document) : Prop :=
  ∃ b f a, ev = arrives (POST_register b (Some f) a)
           ∧ d = V2_document b (stored_file f a) a.

(** No stored document names a payment screenshot. *)
Definition no_screenshots (l : list document) : Prop :=
  Forall (λ d, paymentScreenshotPath d = undefined) l.


(** An event that does not insert a document with [_id] [i]. *)
Definition spares (i : oid) (ev : event) : Prop :=
  ∀ b upload a, ev = arrives (POST_register b upload a) → new_ObjectId a ≠ i.

(** The disk after DELETE /users/:id of the second version has looked at
    the document it found. *)
Definition swept (user : option document) (d : gset string) : gset string :=
  match user with
  | Some user =>
      if truthy (paymentScreenshotPath user)
         && bool_decide (ToString (paymentScreenshotPath user) ∈ d)
      then d ∖ {[ToString (paymentScreenshotPath user)]}
      else d
  | None => d
  end.



(** A process that is alive and whose connection attempt has settled has
    [usersCollection] assigned. *)
Definition settled (n : node) : Prop :=
  exited n = None → connecting n = false →
  usersCollection (srv n) = Some registrationDB_users.

(** Counting the stored documents that satisfy a test, and the three tests
    on [participation] the statistics are compared with. *)
Definition count (f : document → bool) (s : server) : nat :=
  length (List.filter f (users s)).

Definition is_both (d : document) : bool :=
  bool_decide (participation d = text "both").

Definition is_recognized (d : document) : bool :=
  bool_decide (participation d ∈ text <$> ["competition"; "workshop"; "both"]).

Definition has_participation (d : document) : bool :=
  truthy (participation d).










(** Every answer a program can return satisfies [P]. *)
Fixpoint answers {R} (P : R → Prop) (p : prog R) : Prop :=
  match p with
  | Ret r => P r
  | Throw _ => True
  | Vis c k => ∀ x, answers P (k x)
  end.

(** The status codes the handlers send. *)
Definition sends (ns : list nat) (r : response) : Prop := status r ∈ ns.

(** An upload that reaches the handler: an image no larger than the limit
    whose write succeeds. *)
Definition accepted (f : part) (a : ambient) : Prop :=
  String.prefix "image/" (mimetype f) = true
  ∧ (size f <= V2.limits_fileSize)%N
  ∧ write_error a = None.

End properties.

(** A decidable proposition about concrete data, settled by evaluating its
    decision procedure. *)
Ltac decide_by_computation :=
  first [ refine (bool_decide_eq_false_1 _ _); vm_compute; reflexivity
        | refine (bool_decide_unpack _ _); vm_compute; exact I ].

(* ===================================================================== *)
(** ** Running programs *)
(* ===================================================================== *)

Section run_facts.
Context `{Runtime}.

Lemma run_bind {R T} (p : prog R) (f : R → prog T) (s : server) :
  run (p ≫= f) s =
  match run p s with
  | (Returned r, s') => run (f r) s'
  | (Rejected e, s') => (Rejected e, s')
  end.
Proof.
  unfold mbind, prog_bind. revert s.
  induction p as [r | e | A c k IH]; intros s; simpl; try reflexivity.
  destruct (perform c s) as [r s']. apply IH.
Qed.

Lemma run_try_catch {R} (p : prog R) (h : error → prog R) (s : server) :
  run (try_catch p h) s =
  match run p s with
  | (Returned r, s') => (Returned r, s')
  | (Rejected e, s') => run (h e) s'
  end.
Proof.
  revert s.
  induction p as [r | e | A c k IH]; intros s; simpl; try reflexivity.
  destruct (perform c s) as [r s']. apply IH.
Qed.

Lemma run_await {A} (c : call A) (s : server) :
  run (await c) s =
  match perform c s with
  | (inl e, s') => (Rejected e, s')
  | (inr a, s') => (Returned a, s')
  end.
Proof. simpl. destruct (perform c s) as [[e | a] s']; reflexivity. Qed.

Lemma on_collection_serving {A B} method (s : server) (b : B)
    (act : B → (error + A) * server) :
  serving s → on_collection method s (inr b) act = act b.
Proof. intros [Hc Ho]. unfold on_collection. rewrite Hc, Ho. reflexivity. Qed.

Lemma on_collection_undefined {A B} method (s : server) (arg : error + B)
    (act : B → (error + A) * server) :
  usersCollection s = None →
  ∃ e, on_collection method s arg act = (inl e, s).
Proof. intros Hc. unfold on_collection. rewrite Hc. eauto. Qed.

(** No call ever changes [usersCollection] or [online]. *)
Lemma perform_handle {A} (c : call A) (s : server) :
  usersCollection (perform c s).2 = usersCollection s
  ∧ online (perform c s).2 = online s.
Proof.
  destruct c; simpl; unfold on_collection;
    repeat (case_match; simpl in *; simplify_eq; simpl; try done); done.
Qed.

Lemma run_handle {R} (p : prog R) (s : server) :
  usersCollection (run p s).2 = usersCollection s
  ∧ online (run p s).2 = online s.
Proof.
  revert s. induction p as [r | e | A c k IH]; intros s; simpl; try done.
  pose proof (perform_handle c s) as [Hc Ho].
  destruct (perform c s) as [r s']; simpl in *.
  destruct (IH r s') as [-> ->]. done.
Qed.

(** The required-field test of both versions of POST /register. *)
Lemma truthy_false (v : field) : missing_or_empty v ↔ truthy v = false.
Proof.
  unfold missing_or_empty. destruct v as [| [| c s]]; simpl.
  - split; auto.
  - split; auto.
  - split; [intros [? | ?]; congruence | congruence].
Qed.

Lemma required_test (b : Form.t) :
  Exists missing_or_empty (required b) ↔
  negb (truthy (Form.name b)) || negb (truthy (Form.email b))
  || negb (truthy (Form.phone b)) || negb (truthy (Form.age b))
  || negb (truthy (Form.gender b)) || negb (truthy (Form.experience b))
  || negb (truthy (Form.participation b)) = true.
Proof.
  unfold required. repeat rewrite Exists_cons. rewrite Exists_nil.
  repeat rewrite truthy_false.
  repeat rewrite orb_true_iff. repeat rewrite negb_true_iff. tauto.
Qed.

Lemma V1_register_invalid (b : Form.t) (a : ambient) :
  Exists missing_or_empty (required b) →
  V1.post_register b a =
  Ret (res_status_json 400 (message "All fields are required")).
Proof.
  intros Hm. apply required_test in Hm.
  unfold V1.post_register. cbv zeta. rewrite Hm. reflexivity.
Qed.

Lemma V2_register_invalid (b : Form.t) (f : option file) (a : ambient) :
  Exists missing_or_empty (required b) →
  V2.register b f a =
  Ret (res_status_json 400 (message "All fields are required")).
Proof.
  intros Hm. apply required_test in Hm.
  unfold V2.register. cbv zeta. rewrite Hm. reflexivity.
Qed.

Lemma error_middleware_400 (e : error) : status (V2.error_middleware e) = 400.
Proof. destruct e; simpl; try reflexivity. case_match; reflexivity. Qed.

(** The upload middleware touches the disk only. *)
Lemma upload_single_users (upload : option part) (a : ambient)
    (s : server) :
  users (V2.upload_single upload a s).2 = users s
  ∧ usersCollection (V2.upload_single upload a s).2 = usersCollection s
  ∧ online (V2.upload_single upload a s).2 = online s.
Proof.
  unfold V2.upload_single. repeat (case_match; simpl; try done).
Qed.

End run_facts.

(* ===================================================================== *)
(** ** What POST /register does, case by case *)
(* ===================================================================== *)

Section register_facts.
Context `{Runtime}.

Lemma complete_test (b : Form.t) :
  complete b →
  negb (truthy (Form.name b)) || negb (truthy (Form.email b))
  || negb (truthy (Form.phone b)) || negb (truthy (Form.age b))
  || negb (truthy (Form.gender b)) || negb (truthy (Form.experience b))
  || negb (truthy (Form.participation b)) = false.
Proof.
  unfold complete, required. intros Hc.
  repeat (apply Forall_cons in Hc as [-> Hc]). reflexivity.
Qed.

Lemma complete_not_missing (b : Form.t) :
  complete b ↔ ¬ Exists missing_or_empty (required b).
Proof.
  unfold complete. rewrite <- Forall_Exists_neg.
  apply Forall_proper; [| done]. intros v.
  rewrite truthy_false. destruct (truthy v); naive_solver.
Qed.

Lemma head_filter_None {A} (f : A → bool) (l : list A) :
  head (List.filter f l) = None ↔ ∀ x, x ∈ l → f x = false.
Proof.
  induction l as [| y l IH]; simpl.
  - split; [intros _ x Hx; inversion Hx | done].
  - destruct (f y) eqn:Hy; simpl.
    + split; [done |]. intros Hall. specialize (Hall y (list_elem_of_here _ _)).
      congruence.
    + rewrite IH. split.
      * intros Hall x Hx. apply elem_of_cons in Hx as [-> | Hx]; auto.
      * intros Hall x Hx. apply Hall. by apply list_elem_of_further.
Qed.

Lemma head_filter_Some {A} (f : A → bool) (l : list A) (x : A) :
  head (List.filter f l) = Some x → x ∈ l ∧ f x = true.
Proof.
  induction l as [| y l IH]; simpl; [done |].
  destruct (f y) eqn:Hy; simpl.
  - intros [= <-]. split; [apply list_elem_of_here | done].
  - intros Hx. destruct (IH Hx). split; [by apply list_elem_of_further | done].
Qed.

(** [findOne({ email })] finds a document exactly when the email has one. *)
Lemma find_email (v : field) (l : list document) :
  head (List.filter (matches (f_eq k_email v)) l) = None ↔ v ∉ email <$> l.
Proof.
  rewrite head_filter_None. split.
  - intros Hall Hin. apply list_elem_of_fmap in Hin as (d & -> & Hd).
    specialize (Hall d Hd). simpl in Hall.
    by apply bool_decide_eq_false in Hall.
  - intros Hnin d Hd. simpl. apply bool_decide_eq_false. intros Heq.
    apply Hnin. apply list_elem_of_fmap. eauto.
Qed.

(** The first version, on a complete form, with the store answering. *)
Lemma V1_register_duplicate (b : Form.t) (a : ambient) (s : server) :
  complete b → serving s → registered b s →
  run (V1.post_register b a) s =
    (Returned (res_json (message "User already registered with this email")),
     s).
Proof.
  intros Hc Hs Hr. unfold V1.post_register. cbv zeta.
  rewrite complete_test by done.
  rewrite run_bind, run_await. simpl perform.
  rewrite on_collection_serving by done.
  destruct (head _) as [d |] eqn:Hh; [reflexivity |].
  apply find_email in Hh. done.
Qed.

Lemma V1_register_new (b : Form.t) (a : ambient) (s : server) :
  complete b → serving s → ¬ registered b s →
  run (V1.post_register b a) s =
    if bool_decide (new_ObjectId a ∈ _id <$> users s)
    then (Rejected (MongoServerError "E11000 duplicate key error"), s)
    else (Returned (res_json
            (message "Registration successful! See you at the festival!")),
          set_users (users s ++ [V1_document b a]) s).
Proof.
  intros Hc Hs Hr. unfold V1.post_register. cbv zeta.
  rewrite complete_test by done.
  rewrite run_bind, run_await. simpl perform.
  rewrite on_collection_serving by done.
  apply find_email in Hr. rewrite Hr.
  rewrite run_bind, run_await. simpl perform.
  rewrite on_collection_serving by done. simpl.
  case_bool_decide; reflexivity.
Qed.

(** The second version's handler, on a complete form with a file. *)
Lemma V2_register_duplicate (b : Form.t) (f : file) (a : ambient)
    (s : server) :
  complete b → serving s → registered b s →
  run (V2.register b (Some f) a) s =
    if bool_decide (path f ∈ disk s)
    then (Returned (res_status_json 400
            (message "User already registered with this email")),
          set_disk (disk s ∖ {[path f]}) s)
    else (Returned (res_status_json 500
            (message "Registration failed: no such file or directory")), s).
Proof.
  intros Hc Hs Hr. unfold V2.register. cbv zeta.
  rewrite complete_test by done.
  rewrite run_try_catch, run_bind, run_await. simpl perform.
  rewrite on_collection_serving by done.
  destruct (head _) as [d |] eqn:Hh.
  - rewrite run_bind, run_await. simpl perform.
    case_bool_decide; reflexivity.
  - apply find_email in Hh. done.
Qed.

Lemma V2_register_new (b : Form.t) (f : file) (a : ambient) (s : server) :
  complete b → serving s → ¬ registered b s →
  run (V2.register b (Some f) a) s =
    if bool_decide (new_ObjectId a ∈ _id <$> users s)
    then (Returned (res_status_json 500
            (message "Registration failed: E11000 duplicate key error")), s)
    else (Returned (res_json (message
            "Registration successful! Payment verification in progress. See you at the festival!")),
          set_users (users s ++ [V2_document b f a]) s).
Proof.
  intros Hc Hs Hr. unfold V2.register. cbv zeta.
  rewrite complete_test by done.
  rewrite run_try_catch, run_bind, run_await. simpl perform.
  rewrite on_collection_serving by done.
  apply find_email in Hr. rewrite Hr.
  rewrite run_bind, run_await. simpl perform.
  rewrite on_collection_serving by done. simpl.
  case_bool_decide; reflexivity.
Qed.

Lemma V2_register_no_file (b : Form.t) (a : ambient) (s : server) :
  complete b →
  run (V2.register b None a) s =
    (Returned (res_status_json 400 (message "Payment screenshot is required")),
     s).
Proof.
  intros Hc. unfold V2.register. cbv zeta.
  rewrite complete_test by done. reflexivity.
Qed.

(** An accepted upload is on disk when the handler starts. *)
Lemma upload_single_accepted (f : part) (a : ambient)
    (s : server) :
  accepted f a →
  V2.upload_single (Some f) a s =
    (inr (Some (stored_file f a)),
     set_disk ({[path (stored_file f a)]} ∪ disk s) s).
Proof.
  intros (Hi & Hsz & Hw). unfold V2.upload_single, V2.fileFilter.
  rewrite Hi, Hw. apply N.ltb_ge in Hsz. rewrite Hsz. reflexivity.
Qed.

End register_facts.

(* ===================================================================== *)
(** ** Validation of the required fields *)
(* ===================================================================== *)

(** C2. A submission in which one of the seven required fields is missing
    or empty is answered 400 "All fields are required" by the handler of
    either version, which leaves the server as it was; through the upload
    middleware of the second version the answer is a 400 as well and the
    stored documents are unchanged. *)
Theorem missing_field_rejected `{Runtime} (b : Form.t) (a : ambient)
    (s : server) :
  Exists missing_or_empty (required b) →
  run (V1.post_register b a) s =
    (Returned (res_status_json 400 (message "All fields are required")), s)
  ∧ (∀ req_file,
       run (V2.register b req_file a) s =
         (Returned (res_status_json 400 (message "All fields are required")),
          s))
  ∧ (∀ upload, ∃ r s',
       V2.post_register b upload a s = (Returned r, s')
       ∧ status r = 400 ∧ users s' = users s).
Proof.
  intros Hm. split; [| split].
  - rewrite V1_register_invalid by done. reflexivity.
  - intros f. rewrite V2_register_invalid by done. reflexivity.
  - intros upload. unfold V2.post_register.
    pose proof (upload_single_users upload a s) as (Hu & _ & _).
    destruct (V2.upload_single upload a s) as [[e | f] s']; simpl in Hu.
    + eexists _, _. split; [reflexivity |].
      split; [apply error_middleware_400 | done].
    + rewrite V2_register_invalid by done. simpl.
      eexists _, _. split; [reflexivity |]. done.
Qed.

Lemma missing_field_rejected_witness :
  let b := Sample.with_name (text "") Sample.ana in
  Exists missing_or_empty (required b)
  ∧ run (V1.post_register (H := node_runtime) b Sample.first) Sample.with_ana =
      (Returned (res_status_json 400 (message "All fields are required")),
       Sample.with_ana).
Proof.
  split.
  - apply Exists_cons_hd. right. reflexivity.
  - apply (missing_field_rejected (H := node_runtime)).
    apply Exists_cons_hd. right. reflexivity.
Defined.

(* ===================================================================== *)
(** ** How a request changes the stored documents *)
(* ===================================================================== *)

Section change_facts.
Context `{Runtime}.

Lemma serving_dec (s : server) : serving s ∨ ¬ serving s.
Proof.
  unfold serving. destruct (usersCollection s) as [[] |], (online s);
    first [by left | right; intros [? ?]; congruence].
Qed.

Lemma complete_or_missing (b : Form.t) :
  complete b ∨ Exists missing_or_empty (required b).
Proof.
  destruct (decide (Exists (λ v, truthy v = false) (required b))) as [He | Hn].
  - right. eapply Exists_impl; [exact He |]. intros v. apply truthy_false.
  - left. apply complete_not_missing. intros He. apply Hn.
    eapply Exists_impl; [exact He |]. intros v. apply truthy_false.
Qed.

Lemma perform_not_serving {A} (c : call A) (s : server) :
  ¬ serving s → users (perform c s).2 = users s.
Proof.
  unfold serving. intros Hn.
  destruct c; simpl; unfold on_collection;
    destruct (usersCollection s) as [[] |], (online s);
    repeat (case_match; simpl in *; simplify_eq; simpl; try done);
    try done; exfalso; apply Hn; done.
Qed.

Lemma serving_handle (s s' : server) :
  usersCollection s' = usersCollection s → online s' = online s →
  serving s' ↔ serving s.
Proof. unfold serving. intros -> ->. done. Qed.

Lemma run_not_serving {R} (p : prog R) (s : server) :
  ¬ serving s → users (run p s).2 = users s.
Proof.
  revert s. induction p as [r | e | A c k IH]; intros s Hn; simpl; try done.
  pose proof (perform_not_serving c s Hn) as Hu.
  pose proof (perform_handle c s) as [Hc Ho].
  destruct (perform c s) as [r s']; simpl in *.
  rewrite IH; [done |]. by rewrite serving_handle.
Qed.

Lemma change_mono (Q Q' : document → Prop) (l l' : list document) :
  (∀ d, Q d → Q' d) → change Q l l' → change Q' l l'.
Proof. intros HQ Hch. destruct Hch; constructor; auto. Qed.

Lemma V1_register_change (b : Form.t) (a : ambient) (s : server) :
  change (λ d, d = V1_document b a)
    (users s) (users (run (V1.post_register b a) s).2).
Proof.
  destruct (serving_dec s) as [Hs | Hs];
    [| rewrite run_not_serving by done; constructor].
  destruct (complete_or_missing b) as [Hc | Hm];
    [| rewrite V1_register_invalid by done; constructor].
  destruct (decide (Form.email b ∈ email <$> users s)) as [Hr | Hr].
  - rewrite V1_register_duplicate by done. constructor.
  - rewrite V1_register_new by done. case_bool_decide; simpl.
    + constructor.
    + by constructor.
Qed.

Lemma V2_register_change (b : Form.t) (f : option file) (a : ambient)
    (s : server) :
  change (λ d, ∃ f', f = Some f' ∧ d = V2_document b f' a)
    (users s) (users (run (V2.register b f a) s).2).
Proof.
  destruct (serving_dec s) as [Hs | Hs];
    [| rewrite run_not_serving by done; constructor].
  destruct (complete_or_missing b) as [Hc | Hm];
    [| rewrite V2_register_invalid by done; constructor].
  destruct f as [f |]; [| rewrite V2_register_no_file by done; constructor].
  destruct (decide (Form.email b ∈ email <$> users s)) as [Hr | Hr].
  - rewrite V2_register_duplicate by done. case_bool_decide; constructor.
  - rewrite V2_register_new by done. case_bool_decide; simpl.
    + constructor.
    + constructor; eauto.
Qed.

Lemma upload_single_file (upload : option part) (a : ambient)
    (s s' : server) (f' : file) :
  V2.upload_single upload a s = (inr (Some f'), s') →
  ∃ f, upload = Some f ∧ f' = stored_file f a.
Proof.
  unfold V2.upload_single. intros Hup.
  repeat (case_match; simplify_eq); eauto.
Qed.

Lemma V2_post_register_change (b : Form.t) (upload : option part)
    (a : ambient) (s : server) :
  change (λ d, ∃ f, upload = Some f ∧ d = V2_document b (stored_file f a) a)
    (users s) (users (V2.post_register b upload a s).2).
Proof.
  unfold V2.post_register.
  pose proof (upload_single_users upload a s) as (Hu & _ & _).
  destruct (V2.upload_single upload a s) as [[e | f] s'] eqn:Hup;
    simpl in *.
  - rewrite Hu. constructor.
  - rewrite <- Hu. eapply change_mono; [| apply V2_register_change].
    intros d (f' & -> & ->).
    apply upload_single_file in Hup as (f0 & -> & ->). eauto.
Qed.

(** The handlers that only read. *)
Lemma V1_get_users_state (s : server) : (run V1.get_users s).2 = s.
Proof. destruct s as [[[] |] [] us d]; reflexivity. Qed.

Lemma V1_get_stats_state (s : server) : (run V1.get_stats s).2 = s.
Proof. destruct s as [[[] |] [] us d]; reflexivity. Qed.

Lemma V2_get_users_state (s : server) : (run V2.get_users s).2 = s.
Proof. destruct s as [[[] |] [] us d]; reflexivity. Qed.

Lemma V2_get_stats_state (s : server) : (run V2.get_stats s).2 = s.
Proof. destruct s as [[[] |] [] us d]; reflexivity. Qed.

(** DELETE /users/:id of the first version. *)
Lemma V1_delete_run (id : string) (s : server) :
  serving s →
  run (V1.delete_user id) s =
    match ObjectId id with
    | Some i =>
        (Returned (res_json (message "User deleted successfully")),
         set_users (remove_first (matches (f_id i)) (users s)) s)
    | None =>
        (Rejected (BSONError "input must be a 24 character hex string"), s)
    end.
Proof.
  intros [Hc Ho]. unfold V1.delete_user.
  rewrite run_bind, run_await. simpl perform.
  unfold on_collection, by_id. rewrite Hc.
  destruct (ObjectId id) as [i |]; [| reflexivity].
  rewrite Ho. reflexivity.
Qed.

Lemma V1_delete_change Q (id : string) (s : server) :
  change Q (users s) (users (run (V1.delete_user id) s).2).
Proof.
  destruct (serving_dec s) as [Hs | Hs];
    [| rewrite run_not_serving by done; constructor].
  rewrite V1_delete_run by done.
  destruct (ObjectId id); simpl; constructor.
Qed.

(** DELETE /users/:id of the second version. *)
Lemma V2_delete_run (id : string) (i : oid) (s : server) :
  serving s → ObjectId id = Some i →
  run (V2.delete_user id) s =
    (Returned (res_json (message "User deleted successfully")),
     set_users (remove_first (matches (f_id i)) (users s))
       (set_disk
          (swept (head (List.filter (matches (f_id i)) (users s))) (disk s))
          s)).
Proof.
  intros [Hc Ho] Hi. unfold V2.delete_user.
  rewrite run_try_catch, run_bind, run_await. simpl perform.
  unfold on_collection at 1. unfold by_id. rewrite Hc, Hi, Ho.
  destruct (head _) as [user |]; simpl swept.
  - destruct (truthy (paymentScreenshotPath user)); simpl.
    + destruct (bool_decide _) eqn:Hd; simpl; rewrite ?Hd; simpl;
        unfold on_collection; simpl; rewrite Hc, Ho; reflexivity.
    + unfold on_collection; simpl; rewrite Hc, Ho; reflexivity.
  - simpl. unfold on_collection; simpl; rewrite Hc, Ho; reflexivity.
Qed.

Lemma V2_delete_malformed (id : string) (s : server) :
  ObjectId id = None →
  run (V2.delete_user id) s =
    (Returned (res_status_json 500 (message "Failed to delete user")), s).
Proof.
  intros Hi. unfold V2.delete_user.
  rewrite run_try_catch, run_bind, run_await. simpl perform.
  unfold on_collection, by_id. rewrite Hi.
  destruct (usersCollection s); reflexivity.
Qed.

Lemma V2_delete_change Q (id : string) (s : server) :
  change Q (users s) (users (run (V2.delete_user id) s).2).
Proof.
  destruct (serving_dec s) as [Hs | Hs];
    [| rewrite run_not_serving by done; constructor].
  destruct (ObjectId id) as [i |] eqn:Hi.
  - rewrite (V2_delete_run id i) by done. simpl. constructor.
  - rewrite V2_delete_malformed by done. constructor.
Qed.

(** Every event of either version changes the stored documents in one of
    the three ways. *)
Lemma V1_step_change (ev : event) (n : node) :
  change (origin_V1 ev) (users (srv n)) (users (srv (V1.step ev n).1)).
Proof.
  unfold V1.step. destruct (exited n); [constructor |].
  destruct ev as [| e | r].
  - destruct (connecting n); simpl; constructor.
  - destruct (connecting n); simpl; [| constructor].
    unfold V1.unhandled_rejection. case_match; simpl; constructor.
  - destruct (V1.route r) as [p |] eqn:Hp; [| constructor].
    assert (change (origin_V1 (arrives r))
              (users (srv n)) (users (run p (srv n)).2)) as Hch.
    { destruct r; simpl in Hp; simplify_eq.
      - eapply change_mono; [| apply V1_register_change].
        intros d ->. unfold origin_V1. eauto.
      - rewrite V1_get_users_state. constructor.
      - rewrite V1_get_stats_state. constructor.
      - apply V1_delete_change. }
    destruct (run p (srv n)) as [o s']. simpl in *.
    destruct o; simpl; [done |].
    unfold V1.unhandled_rejection. repeat case_match; done.
Qed.

Lemma V2_handle_change (r : request) (s : server) :
  change (origin_V2 (arrives r)) (users s) (users (V2.handle r s).2).
Proof.
  destruct r; unfold V2.handle; cbv beta iota.
  - eapply change_mono; [| apply V2_post_register_change].
    intros d (f & -> & ->). unfold origin_V2. eauto.
  - rewrite V2_get_users_state. constructor.
  - rewrite V2_get_stats_state. constructor.
  - apply V2_delete_change.
  - constructor.
Qed.

Lemma V2_step_change (ev : event) (n : node) :
  change (origin_V2 ev) (users (srv n)) (users (srv (V2.step ev n).1)).
Proof.
  unfold V2.step. destruct (exited n); [constructor |].
  destruct ev as [| e | r].
  - destruct (connecting n); simpl; constructor.
  - destruct (connecting n); simpl; constructor.
  - pose proof (V2_handle_change r (srv n)) as Hch.
    destruct (V2.handle r (srv n)) as [o s']. done.
Qed.

Lemma remove_first_sublist {A} (f : A → bool) (l : list A) :
  remove_first f l `sublist_of` l.
Proof.
  induction l as [| x l IH]; simpl; [done |].
  destruct (f x); [by apply sublist_cons | by apply sublist_skip].
Qed.

Lemma change_NoDup {K} Q (key : document → K) (l l' : list document) :
  (∀ d, email d ∉ email <$> l → _id d ∉ _id <$> l → key d ∉ key <$> l) →
  change Q l l' → NoDup (key <$> l) → NoDup (key <$> l').
Proof.
  intros Hkey Hch Hnd. destruct Hch as [l | l d HQ He Hi | l q].
  - done.
  - rewrite fmap_app. apply NoDup_app. split; [done |]. split.
    + intros k Hk Hk'. simpl in Hk'. apply list_elem_of_singleton in Hk'.
      subst k. by apply (Hkey d).
    + simpl. apply NoDup_singleton.
  - eapply sublist_NoDup; [exact Hnd |].
    apply fmap_sublist, remove_first_sublist.
Qed.

Lemma change_Forall Q (l l' : list document) :
  change Q l l' → Forall Q l → Forall Q l'.
Proof.
  intros Hch Hall. destruct Hch as [l | l d HQ He Hi | l q].
  - done.
  - apply Forall_app. split; [done |]. by apply Forall_singleton.
  - rewrite Forall_forall in Hall. apply Forall_forall. intros x Hx.
    apply Hall. eapply elem_of_sublist; [exact Hx |].
    apply remove_first_sublist.
Qed.

Lemma change_absent Q (i : oid) (l l' : list document) :
  (∀ d, Q d → _id d ≠ i) →
  change Q l l' → i ∉ _id <$> l → i ∉ _id <$> l'.
Proof.
  intros HQ Hch Hn. destruct Hch as [l | l d Hd He Hi | l q].
  - done.
  - rewrite fmap_app, elem_of_app. intros [Hin | Hin]; [done |].
    simpl in Hin. apply list_elem_of_singleton in Hin.
    by apply (HQ d Hd).
  - intros Hin. apply Hn. eapply elem_of_sublist; [exact Hin |].
    apply fmap_sublist, remove_first_sublist.
Qed.

Lemma steps_invariant (P : list document → Prop)
    (step : event → node → node * option (outcome response))
    (origin : event → document → Prop) (ok : event → Prop) :
  (∀ ev l l', ok ev → change (origin ev) l l' → P l → P l') →
  (∀ ev n, change (origin ev) (users (srv n)) (users (srv (step ev n).1))) →
  ∀ evs n, Forall ok evs →
           P (users (srv n)) → P (users (srv (steps step evs n).1)).
Proof.
  intros HP Hstep evs. induction evs as [| ev evs IH]; intros n Hok Hn;
    simpl; [done |].
  apply Forall_cons in Hok as [Hev Hok].
  specialize (Hstep ev n). destruct (step ev n) as [n' o]. simpl in Hstep.
  specialize (IH n' Hok (HP _ _ _ Hev Hstep Hn)).
  destruct (steps step evs n') as [n'' os]. done.
Qed.

End change_facts.

(* ===================================================================== *)
(** ** One document per email *)
(* ===================================================================== *)

(** C1 (amended). With requests handled one at a time, at most one document
    per email is an invariant of every event of either version; and while
    the store answers, a complete submission whose email already has a
    document inserts nothing: the first version answers 200 "User already
    registered with this email" and leaves the server as it was, the second
    version (with an upload that is an image within the size limit and has
    been written) answers 400 with the same message, leaves the documents
    as they were and ends with no file at the upload's path. *)
Theorem one_record_per_email `{Runtime} :
  (∀ evs n, one_per_email (srv n) →
            one_per_email (srv (steps V1.step evs n).1))
  ∧ (∀ evs n, one_per_email (srv n) →
              one_per_email (srv (steps V2.step evs n).1))
  ∧ (∀ b a s, complete b → serving s → registered b s →
       run (V1.post_register b a) s =
         (Returned
            (res_json (message "User already registered with this email")),
          s))
  ∧ (∀ b f a s, complete b → accepted f a → serving s → registered b s →
       ∃ s', V2.post_register b (Some f) a s =
               (Returned (res_status_json 400
                  (message "User already registered with this email")), s')
             ∧ users s' = users s
             ∧ path (stored_file f a) ∉ disk s').
Proof.
  assert (∀ Q l l', change Q l l' →
            NoDup (email <$> l) → NoDup (email <$> l')) as Hinv.
  { intros Q l l' Hch. eapply change_NoDup; [| done]. auto. }
  split; [| split; [| split]].
  - intros evs n.
    apply (steps_invariant (λ l, NoDup (email <$> l)) _ origin_V1 (λ _, True));
      [by eauto | apply V1_step_change | by apply Forall_true].
  - intros evs n.
    apply (steps_invariant (λ l, NoDup (email <$> l)) _ origin_V2 (λ _, True));
      [by eauto | apply V2_step_change | by apply Forall_true].
  - intros b a s. apply V1_register_duplicate.
  - intros b f a s Hc Ha Hs Hr. unfold V2.post_register.
    rewrite upload_single_accepted by done.
    rewrite V2_register_duplicate; [| done | apply Hs | apply Hr].
    simpl disk.
    rewrite bool_decide_eq_true_2
      by (apply elem_of_union_l, elem_of_singleton; reflexivity).
    eexists. split; [reflexivity |]. split; [reflexivity |].
    simpl. rewrite elem_of_difference, elem_of_singleton. tauto.
Qed.

Lemma one_record_per_email_witness :
  one_per_email
    (srv (steps (V1.step (H := node_runtime))
            [connect_resolves;
             arrives (POST_register Sample.ana None Sample.first);
             arrives (POST_register Sample.ana None Sample.second)]
            (boot true [] ∅)).1)
  ∧ run (V1.post_register (H := node_runtime) Sample.ana Sample.second)
        Sample.with_ana =
      (Returned (res_json (message "User already registered with this email")),
       Sample.with_ana).
Proof.
  destruct (one_record_per_email (H := node_runtime)) as (H1 & _ & H3 & _).
  split.
  - apply H1. apply NoDup_nil_2.
  - apply H3.
    + repeat constructor.
    + split; reflexivity.
    + apply list_elem_of_here.
Defined.

(** C1, as stated, fails twice.  Two submissions of one email in flight
    together, each past its lookup before the other inserts, leave two
    documents with that email.  And in the second version a submission whose
    email has a document but whose name is empty stops at the required-field
    test, with its uploaded file left on the disk. *)
Lemma one_record_per_email_fails :
  ¬ one_per_email
      (interleave (H := node_runtime) [0; 1; 0; 1]%nat
         [V1.post_register Sample.ana Sample.first;
          V1.post_register Sample.ana Sample.second] Sample.fresh).2
  ∧ registered (H := node_runtime) (Sample.with_name (text "") Sample.ana)
      Sample.with_ana
  ∧ Sample.receipt_path ∈
      disk (V2.post_register (H := node_runtime)
              (Sample.with_name (text "") Sample.ana) (Some Sample.receipt)
              Sample.second Sample.with_ana).2.
Proof.
  split; [| split].
  - unfold one_per_email. decide_by_computation.
  - apply list_elem_of_here.
  - decide_by_computation.
Qed.

(* ===================================================================== *)
(** ** The uploaded file on the failure branches *)
(* ===================================================================== *)

(** C3 does not hold of the code.  On the duplicate branch the upload is
    unlinked; on the required-field branch (a form with an empty name) and
    on the catch branch (the insert fails, here on an [_id] already stored)
    the answer is sent with the uploaded file still on the disk. *)
Theorem upload_left_on_failure :
  (* duplicate email: 400, and the file is gone *)
  ((V2.post_register (H := node_runtime) Sample.ana (Some Sample.receipt)
      Sample.second Sample.with_ana).1 =
     Returned (res_status_json 400
       (message "User already registered with this email"))
   ∧ Sample.receipt_path ∉
       disk (V2.post_register (H := node_runtime) Sample.ana
               (Some Sample.receipt) Sample.second Sample.with_ana).2)
  (* empty name: 400, and the file stays *)
  ∧ ((V2.post_register (H := node_runtime)
        (Sample.with_name (text "") Sample.ana) (Some Sample.receipt)
        Sample.second Sample.fresh).1 =
       Returned (res_status_json 400 (message "All fields are required"))
     ∧ Sample.receipt_path ∈
         disk (V2.post_register (H := node_runtime)
                 (Sample.with_name (text "") Sample.ana)
                 (Some Sample.receipt) Sample.second Sample.fresh).2)
  (* the insert fails: 500, and the file stays *)
  ∧ ((V2.post_register (H := node_runtime)
        (Sample.with_email (text "b@x.com") Sample.ana)
        (Some Sample.receipt)
        Sample.clash Sample.with_ana).1 =
       Returned (res_status_json 500
         (message "Registration failed: E11000 duplicate key error"))
     ∧ Sample.receipt_path ∈
         disk (V2.post_register (H := node_runtime)
                 (Sample.with_email (text "b@x.com") Sample.ana)
                 (Some Sample.receipt)
                 Sample.clash Sample.with_ana).2).
Proof.
  repeat split; try (vm_compute; reflexivity).
  all: decide_by_computation.
Qed.

(* ===================================================================== *)
(** ** The two answers to a duplicate email *)
(* ===================================================================== *)

(** C4 (amended). On a complete submission whose email already has a
    document, with the store answering, the first version answers with
    status 200 and the second (given an upload that is an image within the
    size limit and has been written) with status 400, so the two answers
    differ; they differ in the status only, the message being the same
    text.  Both leave the stored documents as they were; the first leaves
    the disk as it was, the second ends with the disk it started from less
    the upload's path. *)
Theorem duplicate_answers_differ `{Runtime} (b : Form.t) (f : part)
    (a : ambient) (s : server) :
  complete b → accepted f a → serving s → registered b s →
  ∃ r1 r2 s2,
    run (V1.post_register b a) s = (Returned r1, s)
    ∧ V2.post_register b (Some f) a s = (Returned r2, s2)
    ∧ status r1 = 200 ∧ status r2 = 400
    ∧ r1 ≠ r2
    ∧ sent r1 = message "User already registered with this email"
    ∧ sent r2 = sent r1
    ∧ users s2 = users s
    ∧ disk s2 = disk s ∖ {[path (stored_file f a)]}.
Proof.
  intros Hc Ha Hs Hr.
  rewrite V1_register_duplicate by done.
  unfold V2.post_register. rewrite upload_single_accepted by done.
  rewrite V2_register_duplicate; [| done | apply Hs | apply Hr].
  simpl disk.
  rewrite bool_decide_eq_true_2
    by (apply elem_of_union_l, elem_of_singleton; reflexivity).
  eexists _, _, _. repeat split; try reflexivity.
  - intros Heq. discriminate Heq.
  - simpl. apply set_eq. intros x.
    rewrite !elem_of_difference, elem_of_union, elem_of_singleton. tauto.
Qed.

Lemma duplicate_answers_differ_witness :
  ∃ r1 r2,
    (run (V1.post_register (H := node_runtime) Sample.ana Sample.second)
       Sample.with_ana).1 = Returned r1
    ∧ (V2.post_register (H := node_runtime) Sample.ana (Some Sample.receipt)
         Sample.second Sample.with_ana).1 = Returned r2
    ∧ status r1 = 200 ∧ status r2 = 400.
Proof.
  destruct (duplicate_answers_differ (H := node_runtime) Sample.ana
              Sample.receipt Sample.second Sample.with_ana)
    as (r1 & r2 & s2 & H1 & H2 & H3 & H4 & _).
  - repeat constructor.
  - split; [reflexivity | split; [vm_compute; discriminate | reflexivity]].
  - split; reflexivity.
  - apply list_elem_of_here.
  - exists r1, r2. rewrite H1, H2. auto.
Defined.

(** C4, as stated, fails: the two versions do not differ in the message, and
    they do differ in what they leave behind.  Ana is registered with her
    screenshot at [Sample.dots_path]; she submits again, and her upload is
    written at that same path.  The first version answers and leaves the
    disk alone; the second answers with the same message and unlinks the
    path, so that the screenshot of the stored registration is gone. *)
Lemma duplicate_answers_differ_in_state :
  let first_version :=
    run (V1.post_register (H := node_runtime) Sample.dots Sample.dots_second)
      Sample.with_dots_paid in
  let second_version :=
    V2.post_register (H := node_runtime) Sample.dots (Some Sample.receipt)
      Sample.dots_second Sample.with_dots_paid in
  first_version =
    (Returned (res_json (message "User already registered with this email")),
     Sample.with_dots_paid)
  ∧ second_version.1 =
      Returned (res_status_json 400
                  (message "User already registered with this email"))
  ∧ users second_version.2 = users first_version.2
  ∧ paymentScreenshotPath <$> users second_version.2
    = [text Sample.dots_path]
  ∧ Sample.dots_path ∈ disk first_version.2
  ∧ Sample.dots_path ∉ disk second_version.2.
Proof.
  repeat split; try (vm_compute; reflexivity); decide_by_computation.
Qed.

(* ===================================================================== *)
(** ** A malformed identifier *)
(* ===================================================================== *)

(** C6 (amended). DELETE /users/:id with an identifier that [ObjectId]
    cannot parse leaves the server, and so the stored documents, exactly as
    it was, in both versions; the second version answers 500 "Failed to
    delete user", while the first version's handler sends no answer: its
    promise is rejected. *)
Theorem malformed_id_delete `{Runtime} (id : string) (s : server) :
  ObjectId id = None →
  run (V2.delete_user id) s =
    (Returned (res_status_json 500 (message "Failed to delete user")), s)
  ∧ ∃ e, run (V1.delete_user id) s = (Rejected e, s).
Proof.
  intros Hi. split; [by apply V2_delete_malformed |].
  unfold V1.delete_user. rewrite run_bind, run_await. simpl perform.
  unfold on_collection, by_id. rewrite Hi.
  destruct (usersCollection s); eauto.
Qed.

Lemma malformed_id_delete_witness :
  run (V2.delete_user (H := node_runtime) "not-an-id") Sample.with_ana =
    (Returned (res_status_json 500 (message "Failed to delete user")),
     Sample.with_ana).
Proof.
  apply (malformed_id_delete (H := node_runtime) "not-an-id" Sample.with_ana).
  reflexivity.
Defined.

(** C6, as stated, fails for the first version: on a malformed identifier
    its handler returns no response at all. *)
Lemma malformed_id_delete_unanswered :
  ObjectId (Runtime := node_runtime) "not-an-id" = None
  ∧ ∀ r, (run (V1.delete_user (H := node_runtime) "not-an-id")
            Sample.with_ana).1 ≠ Returned r.
Proof.
  split; [reflexivity |]. intros r.
  assert ((run (V1.delete_user (H := node_runtime) "not-an-id")
             Sample.with_ana).1 =
          Rejected (BSONError "input must be a 24 character hex string"))
    as -> by (vm_compute; reflexivity).
  discriminate.
Qed.

(* ===================================================================== *)
(** ** Listing *)
(* ===================================================================== *)

Section wire_facts.
Context `{Runtime}.




End wire_facts.




(* ===================================================================== *)
(** ** Deleting a registration *)
(* ===================================================================== *)

Section delete_facts.
Context `{Runtime}.

Lemma remove_first_absent (i : oid) (l : list document) :
  NoDup (_id <$> l) → i ∉ _id <$> remove_first (matches (f_id i)) l.
Proof.
  induction l as [| x l IH]; simpl.
  - intros _ Hin. inversion Hin.
  - intros Hnd. apply NoDup_cons in Hnd as [Hx Hnd].
    case_bool_decide as Hxi.
    + by subst i.
    + simpl. rewrite elem_of_cons. intros [Heq | Hin]; [done |].
      by apply IH.
Qed.

Lemma remove_first_none {A} (f : A → bool) (l : list A) :
  (∀ x, x ∈ l → f x = false) → remove_first f l = l.
Proof.
  induction l as [| x l IH]; simpl; [done |]. intros Hall.
  rewrite (Hall x) by apply list_elem_of_here.
  rewrite IH; [done |]. intros y Hy. apply Hall. by apply list_elem_of_further.
Qed.

Lemma absent_no_match (i : oid) (l : list document) :
  i ∉ _id <$> l → ∀ x, x ∈ l → matches (f_id i) x = false.
Proof.
  intros Hn x Hx. simpl. apply bool_decide_eq_false. intros Heq.
  apply Hn. apply list_elem_of_fmap. eauto.
Qed.

(** With unique [_id]s, [findOne({ _id: i })] returns the document that
    has it. *)
Lemma find_id (i : oid) (l : list document) (user : document) :
  NoDup (_id <$> l) → user ∈ l → _id user = i →
  head (List.filter (matches (f_id i)) l) = Some user.
Proof.
  induction l as [| x l IH]; simpl.
  - intros _ Hin. inversion Hin.
  - intros Hnd Hin Hi. apply NoDup_cons in Hnd as [Hx Hnd].
    apply elem_of_cons in Hin as [-> | Hin].
    + rewrite bool_decide_eq_true_2 by done. reflexivity.
    + case_bool_decide as Hxi; [| by apply IH].
      exfalso. apply Hx. rewrite Hxi, <- Hi.
      apply list_elem_of_fmap. eauto.
Qed.

Lemma swept_gone (user : document) (d : gset string) :
  truthy (paymentScreenshotPath user) = true →
  ToString (paymentScreenshotPath user) ∉ swept (Some user) d.
Proof.
  intros Ht. simpl. rewrite Ht. simpl. case_bool_decide as Hin; [| done].
  rewrite elem_of_difference, elem_of_singleton. tauto.
Qed.

(** A handler resumed again and again with nothing in between ends as the
    handler run in one go. *)
Lemma run_settle {R} (p : prog R) (s : server) :
  run (settle p s).1 (settle p s).2 = run p s.
Proof.
  revert s. induction p as [r | e | A c k IH]; intros s; simpl; try done.
  destruct (is_sync c || throws_at_once c s); [| done].
  destruct (perform c s) as [r s']. apply IH.
Qed.

Lemma run_resume {R} (p : prog R) (s : server) :
  run (resume p s).1 (resume p s).2 = run p s.
Proof.
  destruct p as [r | e | A c k]; simpl; try done.
  destruct (perform c s) as [r s']. apply run_settle.
Qed.

(** The second version's DELETE after its first turn: the lookup has been
    answered and the file dealt with; the documents are still all there. *)
Lemma V2_delete_first_turn (id : string) (i : oid) (s : server) :
  serving s → ObjectId id = Some i →
  (resume (V2.delete_user id) s).2 =
    set_disk (swept (head (List.filter (matches (f_id i)) (users s))) (disk s))
      s.
Proof.
  intros [Hc Ho] Hi. unfold V2.delete_user. simpl.
  unfold on_collection at 1. unfold by_id. rewrite Hc, Hi, Ho.
  destruct (head _) as [user |]; simpl.
  - destruct (truthy (paymentScreenshotPath user)); simpl.
    + destruct (bool_decide _) eqn:Hd; simpl; rewrite ?Hd; simpl;
        unfold throws_at_once; simpl; rewrite Hc; simpl; try reflexivity.
      by destruct s.
    + unfold throws_at_once. rewrite Hc. simpl. by destruct s.
  - unfold throws_at_once. rewrite Hc. simpl. by destruct s.
Qed.

Lemma set_same (s : server) : set_users (users s) (set_disk (disk s) s) = s.
Proof. by destruct s. Qed.

End delete_facts.

(** C5. DELETE /users/:id with an identifier that parses, the store
    answering and [_id]s unique.  Both versions answer 200 "User deleted
    successfully", whether or not a document has that [_id] (with none, the
    server is left as it was); afterwards no document has it, it stays so
    over any later events that do not insert that [_id] anew, and GET /users
    lists the documents that are left.  In the second version, if the
    document named a screenshot, that path is off the disk already after
    the handler's first turn, while the document is still stored, and
    whether the file was there or not makes no difference to the answer.
    Documents of the first version name no screenshot. *)
Theorem delete_registration `{Runtime} (id : string) (i : oid) (s : server) :
  ObjectId id = Some i → serving s → ids_unique s →
  let ok := Returned (res_json (message "User deleted successfully")) in
  let s1 := (resume (V2.delete_user id) s).2 in
  let s2 := (run (V2.delete_user id) s).2 in
  let s' := (run (V1.delete_user id) s).2 in
  ((run (V2.delete_user id) s).1 = ok
   ∧ ¬ stored i s2
   ∧ (∀ evs n, srv n = s2 → Forall (spares i) evs →
        ¬ stored i (srv (steps V2.step evs n).1))
   ∧ run V2.get_users s2 = (Returned (res_json (documents (users s2))), s2)
   ∧ (∀ user, user ∈ users s → _id user = i →
        truthy (paymentScreenshotPath user) = true →
        (ToString (paymentScreenshotPath user) ∉ disk s1)
        ∧ users s1 = users s ∧ disk s2 = disk s1)
   ∧ (¬ stored i s → s2 = s))
  ∧ ((run (V1.delete_user id) s).1 = ok
     ∧ ¬ stored i s'
     ∧ (∀ evs n, srv n = s' → Forall (spares i) evs →
          ¬ stored i (srv (steps V1.step evs n).1))
     ∧ run V1.get_users s' = (Returned (res_json (documents (users s'))), s')
     ∧ disk s' = disk s
     ∧ (¬ stored i s → s' = s)
     ∧ (∀ evs n, no_screenshots (users (srv n)) →
          no_screenshots (users (srv (steps V1.step evs n).1)))).
Proof.
  intros Hi Hs Hu. pose proof Hs as [Hc Ho]. cbv zeta.
  rewrite (V2_delete_first_turn id i), (V2_delete_run id i), V1_delete_run, Hi
    by done.
  simpl fst. simpl snd. unfold stored.
  assert (∀ step origin,
            (∀ ev n, change (origin ev) (users (srv n))
                       (users (srv (step ev n).1))) →
            (∀ ev d, spares i ev → origin ev d → _id d ≠ i) →
            ∀ evs n, i ∉ _id <$> users (srv n) → Forall (spares i) evs →
                     i ∉ _id <$> users (srv (steps step evs n).1)) as Hlater.
  { intros step origin Hstep Horigin evs n Hn Hev.
    apply (steps_invariant (λ l, i ∉ _id <$> l) step origin (spares i));
      try done.
    intros ev l l' Hsp. apply change_absent. intros d. by apply Horigin. }
  split.
  - split; [done |]. split; [by apply remove_first_absent |].
    split; [| split; [| split]].
    + intros evs n Hn. apply (Hlater V2.step origin_V2).
      * apply V2_step_change.
      * intros ev d Hsp (b & f & a & -> & ->). simpl. by eapply Hsp.
      * rewrite Hn. simpl. by apply remove_first_absent.
    + destruct s as [[[] |] [] us d]; simpl in *; simplify_eq; done.
    + intros user Hin Hid Ht.
      rewrite (find_id i (users s) user) by done.
      split; [by apply swept_gone |]. done.
    + intros Hn.
      pose proof (absent_no_match i (users s) Hn) as Hno.
      rewrite remove_first_none by done.
      apply head_filter_None in Hno. rewrite Hno. simpl. apply set_same.
  - split; [done |]. split; [by apply remove_first_absent |].
    split; [| split; [| split; [| split]]].
    + intros evs n Hn. apply (Hlater V1.step origin_V1).
      * apply V1_step_change.
      * intros ev d Hsp (b & f & a & -> & ->). simpl. by eapply Hsp.
      * rewrite Hn. simpl. by apply remove_first_absent.
    + destruct s as [[[] |] [] us d]; simpl in *; simplify_eq; done.
    + done.
    + intros Hn. rewrite remove_first_none by by apply absent_no_match.
      by destruct s.
    + intros evs n.
      apply (steps_invariant no_screenshots V1.step origin_V1 (λ _, True));
        [| apply V1_step_change | by apply Forall_true].
      intros ev l l' _ Hch Hl. unfold no_screenshots in *.
      eapply change_Forall; [| exact Hl].
      eapply change_mono; [| exact Hch].
      intros d (b & f & a & _ & ->). reflexivity.
Qed.

Lemma delete_registration_witness :
  (run (V2.delete_user (H := node_runtime) Sample.id1)
     Sample.with_ana_paid).1 =
    Returned (res_json (message "User deleted successfully"))
  ∧ ¬ stored (H := node_runtime) Sample.id1
        (run (V2.delete_user (H := node_runtime) Sample.id1)
           Sample.with_ana_paid).2.
Proof.
  destruct (delete_registration (H := node_runtime) Sample.id1 Sample.id1
              Sample.with_ana_paid) as [(H1 & H2 & _) _].
  - reflexivity.
  - split; reflexivity.
  - apply NoDup_singleton.
  - split; [exact H1 | exact H2].
Defined.

(* ===================================================================== *)
(** ** Statistics *)
(* ===================================================================== *)

Section stats_facts.
Context {A : Type}.
Implicit Types (f g : A → bool) (l : list A).

Lemma count_disjoint f g l :
  (∀ x, f x = true → g x = false) →
  (length (List.filter f l) + length (List.filter g l) ≤ length l)%nat.
Proof.
  intros Hfg. induction l as [| x l IH]; simpl; [done |].
  specialize (Hfg x). destruct (f x), (g x); simpl;
    first [lia | by specialize (Hfg eq_refl)].
Qed.

Lemma count_le f g l :
  (∀ x, f x = true → g x = true) →
  (length (List.filter f l) ≤ length (List.filter g l))%nat.
Proof.
  intros Hfg. induction l as [| x l IH]; simpl; [done |].
  specialize (Hfg x). destruct (f x), (g x); simpl;
    first [lia | by specialize (Hfg eq_refl)].
Qed.

Lemma count_eq f g l :
  Forall (λ x, f x = g x) l →
  length (List.filter f l) = length (List.filter g l).
Proof.
  induction 1 as [| x l Hx _ IH]; simpl; [done |].
  rewrite Hx. destruct (g x); simpl; lia.
Qed.

(** Four tests whose indicators add up pointwise add up in the counts. *)
Lemma count_pointwise (c w b r : A → bool) l :
  (∀ x, Nat.b2n (c x) + Nat.b2n (w x) = Nat.b2n (b x) + Nat.b2n (r x)) →
  length (List.filter c l) + length (List.filter w l) =
  length (List.filter b l) + length (List.filter r l).
Proof.
  intros Hx. induction l as [| x l IH]; simpl; [done |].
  specialize (Hx x).
  destruct (c x), (w x), (b x), (r x); simpl in *; lia.
Qed.

End stats_facts.

Section participation_facts.
Context `{Runtime}.

(** The three values the counts recognise exclude one another; a document
    counts for the competition, the workshop or both exactly as its
    participation is one of them. *)
Lemma participation_cases (d : document) :
  participation d = text "competition"
  ∨ participation d = text "workshop"
  ∨ participation d = text "both"
  ∨ (matches (f_in k_participation ["competition"; "both"]) d = false
     ∧ matches (f_in k_participation ["workshop"; "both"]) d = false
     ∧ is_both d = false ∧ is_recognized d = false).
Proof.
  unfold is_both, is_recognized. simpl.
  destruct (decide (participation d = text "competition")) as [| Hc];
    [by left |].
  destruct (decide (participation d = text "workshop")) as [| Hw];
    [by right; left |].
  destruct (decide (participation d = text "both")) as [| Hb];
    [by right; right; left |].
  right; right; right.
  repeat split; apply bool_decide_eq_false;
    rewrite ?elem_of_cons, ?elem_of_nil; tauto.
Qed.

Lemma participation_indicators (d : document) :
  Nat.b2n (matches (f_in k_participation ["competition"; "both"]) d)
  + Nat.b2n (matches (f_in k_participation ["workshop"; "both"]) d)
  = Nat.b2n (is_both d) + Nat.b2n (is_recognized d).
Proof.
  destruct (participation_cases d) as [Hp | [Hp | [Hp | (-> & -> & -> & ->)]]];
    [| | | reflexivity];
    unfold is_both, is_recognized; simpl; rewrite Hp; reflexivity.
Qed.

Lemma recognized_has_participation (d : document) :
  is_recognized d = true → has_participation d = true.
Proof.
  unfold has_participation.
  destruct (participation_cases d) as [Hp | [Hp | [Hp | (_ & _ & _ & ->)]]];
    [| | | done]; rewrite Hp; reflexivity.
Qed.

Lemma gender_exclusive (d : document) :
  matches (f_eq k_gender (text "male")) d = true →
  matches (f_eq k_gender (text "female")) d = false.
Proof.
  simpl. intros Hm. apply bool_decide_eq_true in Hm.
  apply bool_decide_eq_false. rewrite Hm. discriminate.
Qed.

End participation_facts.

(** C7 (amended). With the store answering, GET /stats of either version
    answers with counts over the very documents GET /users lists: [total]
    is their number, [male] + [female] is at most [total], and
    [competition] + [workshop] minus the number of documents whose
    participation is "both" is the number of documents whose participation
    is one of "competition", "workshop" and "both".  That number is at most
    the number of documents with a non-empty participation, and equal to it
    when every stored participation is one of the three. *)
Theorem stats_consistent `{Runtime} (s : server) :
  serving s →
  ∃ st,
    run V2.get_stats s = (Returned (res_json (statistics st)), s)
    ∧ run V1.get_stats s = (Returned (res_json (statistics st)), s)
    ∧ run V2.get_users s = (Returned (res_json (documents (users s))), s)
    ∧ total st = length (users s)
    ∧ (male st + female st ≤ total st)%nat
    ∧ competition st + workshop st - count is_both s = count is_recognized s
    ∧ (count is_recognized s ≤ count has_participation s)%nat
    ∧ (Forall (λ d, is_recognized d = has_participation d) (users s) →
       competition st + workshop st - count is_both s
       = count has_participation s).
Proof.
  intros [Hc Ho]. destruct s as [[[] |] [] us d]; simpl in *; simplify_eq.
  eexists. split; [reflexivity |]. split; [reflexivity |].
  split; [reflexivity |]. simpl. unfold count. simpl.
  pose proof (count_pointwise
                (matches (f_in k_participation ["competition"; "both"]))
                (matches (f_in k_participation ["workshop"; "both"]))
                is_both is_recognized us participation_indicators) as Hsum.
  split; [by rewrite List.filter_true |]. split; [| split; [| split]].
  - rewrite List.filter_true. apply count_disjoint, gender_exclusive.
  - lia.
  - apply count_le, recognized_has_participation.
  - intros Hall. rewrite <- (count_eq _ _ _ Hall). lia.
Qed.

Lemma stats_consistent_witness :
  ∃ st,
    run (V2.get_stats (H := node_runtime)) Sample.with_ana_paid =
      (Returned (res_json (statistics st)), Sample.with_ana_paid)
    ∧ st = {| total := 1; male := 0; female := 1; beginners := 1;
              competition := 1; workshop := 1 |}.
Proof.
  destruct (stats_consistent (H := node_runtime) Sample.with_ana_paid)
    as (st & H1 & _).
  - split; reflexivity.
  - exists st. split; [exact H1 |].
    assert ((run (V2.get_stats (H := node_runtime)) Sample.with_ana_paid).1
            = Returned (res_json (statistics
                 {| total := 1; male := 0; female := 1; beginners := 1;
                    competition := 1; workshop := 1 |})))
      as Hrun by (vm_compute; reflexivity).
    rewrite H1 in Hrun. injection Hrun as Hrun. exact Hrun.
Defined.

(** C7, as stated, fails: participation is free text, and a document whose
    participation is none of the three recognised values is counted by
    neither [competition] nor [workshop] although its participation is not
    empty. *)
Lemma stats_open_participation :
  let s := (run (V1.post_register (H := node_runtime)
                   (Sample.with_participation (text "spectator") Sample.ana)
                   Sample.first) Sample.fresh).2 in
  ∃ st,
    run (V1.get_stats (H := node_runtime)) s =
      (Returned (res_json (statistics st)), s)
    ∧ competition st + workshop st - count is_both s = 0
    ∧ count has_participation s = 1.
Proof.
  intros s.
  exists {| total := 1; male := 0; female := 1; beginners := 1;
            competition := 0; workshop := 0 |}.
  split; [| split; vm_compute; reflexivity].
  assert (s = set_users
                [V1_document (H := node_runtime)
                   (Sample.with_participation (text "spectator") Sample.ana)
                   Sample.first] Sample.fresh) as -> by reflexivity.
  reflexivity.
Qed.

(* ===================================================================== *)
(** ** The stored age *)
(* ===================================================================== *)

Section parseInt_facts.













End parseInt_facts.




(* ===================================================================== *)
(** ** Startup *)
(* ===================================================================== *)

Section startup_facts.
Context `{Runtime}.

Lemma V1_steps_exited (evs : list event) (n : node) :
  is_Some (exited n) →
  steps V1.step evs n = (n, (λ _, None) <$> evs).
Proof.
  intros [c Hc]. induction evs as [| ev evs IH]; simpl; [done |].
  unfold V1.step at 1. rewrite Hc, IH. reflexivity.
Qed.

Lemma V2_steps_exited (evs : list event) (n : node) :
  is_Some (exited n) →
  steps V2.step evs n = (n, (λ _, None) <$> evs).
Proof.
  intros [c Hc]. induction evs as [| ev evs IH]; simpl; [done |].
  unfold V2.step at 1. rewrite Hc, IH. reflexivity.
Qed.

Lemma V2_handle_handle (r : request) (s : server) :
  usersCollection (V2.handle r s).2 = usersCollection s.
Proof.
  destruct r; unfold V2.handle; cbv beta iota; try apply run_handle.
  unfold V2.post_register.
  pose proof (upload_single_users upload a s) as (_ & Hc & _).
  destruct (V2.upload_single upload a s) as [[e | f] s']; simpl in *;
    [done |].
  rewrite <- Hc. apply run_handle.
Qed.

Lemma V2_step_settled (ev : event) (n : node) :
  settled n → settled (V2.step ev n).1.
Proof.
  unfold settled, V2.step. intros Hn.
  destruct (exited n) eqn:He; [simpl; congruence |].
  destruct ev as [| e | r].
  - destruct (connecting n) eqn:Hcn; simpl; auto.
  - destruct (connecting n) eqn:Hcn; simpl; [done | auto].
  - pose proof (V2_handle_handle r (srv n)) as Hh.
    destruct (V2.handle r (srv n)) as [o s']. simpl in *.
    intros _ Hcn. rewrite Hh. auto.
Qed.

Lemma V1_step_settled (ev : event) (n : node) :
  unhandled_rejections_throw = true →
  settled n → settled (V1.step ev n).1.
Proof.
  unfold settled, V1.step, V1.connectDB, V1.unhandled_rejection.
  intros Hthrow Hn.
  rewrite Hthrow.
  destruct (exited n) eqn:He; [simpl; congruence |].
  destruct ev as [| e | r].
  - destruct (connecting n) eqn:Hcn; simpl; auto.
  - destruct (connecting n) eqn:Hcn; simpl; [done | auto].
  - destruct (V1.route r) as [p |]; [| simpl; auto].
    pose proof (run_handle p (srv n)) as [Hh _].
    destruct (run p (srv n)) as [o s']. simpl in *.
    destruct o; simpl.
    + intros _ Hcn. rewrite Hh. auto.
    + destruct express_forwards_rejections; simpl; [| done].
      intros _ Hcn. rewrite Hh. auto.
Qed.

Lemma steps_settled
    (step : event → node → node * option (outcome response)) :
  (∀ ev n, settled n → settled (step ev n).1) →
  ∀ evs n, settled n → settled (steps step evs n).1.
Proof.
  intros Hstep evs. induction evs as [| ev evs IH]; intros n Hn; simpl;
    [done |].
  specialize (Hstep ev n Hn). destruct (step ev n) as [n' o].
  specialize (IH n' Hstep). destruct (steps step evs n') as [n'' os]. done.
Qed.

End startup_facts.

(** C8 (amended). In the second version, a connection attempt that fails
    makes the process exit with code 1, whatever requests it has answered
    while the attempt was pending, and no event after that is handled; and
    at any time after startup, a process that is alive and whose connection
    attempt has settled has [usersCollection] assigned, so every handler run
    from then on sees it.  The first version does the same when the runtime
    throws on unhandled rejections. *)
Theorem connect_failure_exits `{Runtime} (n : node) (e : error)
    (evs : list event) :
  exited n = None → connecting n = true →
  (steps V2.step (connect_rejects e :: evs) n =
     ({| exited := Some 1; connecting := false; srv := srv n |},
      (λ _, None) <$> (connect_rejects e :: evs))
   ∧ ∀ up docs files, settled (steps V2.step evs (boot up docs files)).1)
  ∧ (unhandled_rejections_throw = true →
     steps V1.step (connect_rejects e :: evs) n =
       ({| exited := Some 1; connecting := false; srv := srv n |},
        (λ _, None) <$> (connect_rejects e :: evs))
     ∧ ∀ up docs files, settled (steps V1.step evs (boot up docs files)).1).
Proof.
  intros He Hcn.
  assert (∀ up docs files, settled (boot up docs files)) as Hboot.
  { intros up docs files _ Hc. discriminate Hc. }
  split; [split |].
  - simpl. unfold V2.step at 1. rewrite He, Hcn. simpl.
    rewrite V2_steps_exited by (by eexists). reflexivity.
  - intros up docs files. apply steps_settled; [apply V2_step_settled | done].
  - intros Hthrow. split.
    + simpl. unfold V1.step at 1. rewrite He, Hcn. simpl.
      unfold V1.unhandled_rejection. rewrite Hthrow. simpl.
      rewrite V1_steps_exited by (by eexists). reflexivity.
    + intros up docs files. apply steps_settled; [| done].
      intros ev n'. by apply V1_step_settled.
Qed.

Lemma connect_failure_exits_witness :
  steps (V1.step (H := node_runtime))
    [connect_rejects (MongoNetworkError "connect ECONNREFUSED");
     arrives GET_users]
    (boot true [] ∅) =
    ({| exited := Some 1; connecting := false;
        srv := srv (boot true [] ∅) |}, [None; None]).
Proof.
  destruct (connect_failure_exits (H := node_runtime) (boot true [] ∅)
              (MongoNetworkError "connect ECONNREFUSED") [arrives GET_users])
    as [_ HV1]; [reflexivity | reflexivity |].
  destruct HV1 as [Hsteps _]; [reflexivity |].
  exact Hsteps.
Defined.

(** C8, as stated, fails.  The server listens before the connection attempt
    has settled: a request that arrives first is handled with
    [usersCollection] undefined (the second version's catch turns the
    TypeError into a 500) and the process goes on.  And where unhandled
    rejections are only warned about, the first version survives a failed
    connection and handles the next request with [usersCollection]
    undefined. *)
Lemma request_before_connection :
  usersCollection (srv (boot (H := node_runtime) true [] ∅)) = None
  ∧ V2.step (H := node_runtime)
      (arrives (POST_register Sample.ana (Some Sample.receipt) Sample.second))
      (boot true [] ∅) =
      ({| exited := None; connecting := true;
          srv := {| usersCollection := None; online := true; users := [];
                    disk := {[Sample.receipt_path]} |} |},
       Some (Returned (res_status_json 500 (message
         "Registration failed: Cannot read properties of undefined (reading 'findOne')"))))
  ∧ steps (V1.step (H := warning_runtime))
      [connect_rejects (MongoNetworkError "connect ECONNREFUSED");
       arrives GET_users]
      (boot true [] ∅) =
      ({| exited := None; connecting := false;
          srv := srv (boot true [] ∅) |},
       [None;
        Some (Rejected (TypeError
          "Cannot read properties of undefined (reading 'find')"))]).
Proof. repeat split; vm_compute; reflexivity. Qed.

(* ===================================================================== *)
(** ** Further properties: the upload middleware and the error middleware *)
(* ===================================================================== *)

(** X1. The [origin] function of the CORS configuration allows every
    origin, absent, listed or not, whatever FRONTEND_URL is set to. *)
Theorem cors_allows_every_origin (FRONTEND_URL origin : field) :
  V2.cors_origin FRONTEND_URL origin = inr true.
Proof.
  unfold V2.cors_origin.
  destruct (negb (truthy origin)); [reflexivity |].
  destruct (_ =? _)%Z; reflexivity.
Qed.

(** X2. A file part whose MIME type does not start with "image/" is refused
    before the handler runs: the answer is 400 "Only image files are
    allowed!", whatever the form holds, and the server (documents and disk)
    is as it was. *)
Theorem non_image_upload_refused `{Runtime} (b : Form.t) (f : part)
    (a : ambient) (s : server) :
  String.prefix "image/" (mimetype f) = false →
  V2.post_register b (Some f) a s =
    (Returned (res_status_json 400 (message "Only image files are allowed!")),
     s).
Proof.
  intros Hm. unfold V2.post_register, V2.upload_single, V2.fileFilter.
  rewrite Hm. reflexivity.
Qed.

Lemma non_image_upload_refused_witness :
  V2.post_register (H := node_runtime) Sample.ana
    (Some {| originalname := "cv.pdf"; mimetype := "application/pdf";
             size := 10 |})
    Sample.second Sample.fresh =
    (Returned (res_status_json 400 (message "Only image files are allowed!")),
     Sample.fresh).
Proof.
  apply (non_image_upload_refused (H := node_runtime)). reflexivity.
Defined.



(** X4. A complete form sent to the second version with no file part is
    answered 400 "Payment screenshot is required" before any store call:
    the server is as it was, whether or not the store answers and whether or
    not the email already has a document. *)
Theorem missing_attachment_refused `{Runtime} (b : Form.t) (a : ambient)
    (s : server) :
  complete b →
  V2.post_register b None a s =
    (Returned (res_status_json 400 (message "Payment screenshot is required")),
     s).
Proof.
  intros Hc. unfold V2.post_register. simpl.
  by apply V2_register_no_file.
Qed.

Lemma missing_attachment_refused_witness :
  V2.post_register (H := node_runtime) Sample.ana None Sample.second
    Sample.with_ana =
    (Returned (res_status_json 400 (message "Payment screenshot is required")),
     Sample.with_ana).
Proof.
  apply (missing_attachment_refused (H := node_runtime)).
  repeat constructor.
Defined.



(* ===================================================================== *)
(** ** Further properties: every request of the second version is answered *)
(* ===================================================================== *)

Section answers_facts.
Context `{Runtime}.

Lemma answers_await_bind {A R} (P : R → Prop) (c : call A)
    (k : A → prog R) :
  (∀ a, answers P (k a)) → answers P (await c ≫= k).
Proof. intros Hk [e | a]; simpl; [done | apply Hk]. Qed.

Lemma try_catch_returns {R} (P : R → Prop) (p : prog R)
    (h : error → prog R) (s : server) :
  answers P p → (∀ e, ∃ r, h e = Ret r ∧ P r) →
  ∃ r, (run (try_catch p h) s).1 = Returned r ∧ P r.
Proof.
  intros Hp Hh. revert s.
  induction p as [r | e | A c k IH]; intros s; simpl in *.
  - eauto.
  - destruct (Hh e) as (r & -> & Hr). eauto.
  - destruct (perform c s) as [x s']. apply IH, Hp.
Qed.

Lemma sends_200 j : sends [200; 400; 500] (res_json j).
Proof. unfold sends. simpl. apply list_elem_of_here. Qed.

Lemma sends_400 j : sends [200; 400; 500] (res_status_json 400 j).
Proof.
  unfold sends. simpl. apply list_elem_of_further, list_elem_of_here.
Qed.

Lemma sends_500 j : sends [200; 400; 500] (res_status_json 500 j).
Proof.
  unfold sends. simpl.
  apply list_elem_of_further, list_elem_of_further, list_elem_of_here.
Qed.

Lemma V2_register_returns (b : Form.t) (f : option file) (a : ambient)
    (s : server) :
  ∃ r, (run (V2.register b f a) s).1 = Returned r ∧ sends [200; 400; 500] r.
Proof.
  unfold V2.register. apply try_catch_returns.
  - cbv zeta. destruct (_ || _); [apply sends_400 |].
    destruct f as [f |]; [| apply sends_400].
    apply answers_await_bind. intros [d |].
    + apply answers_await_bind. intros _. apply sends_400.
    + apply answers_await_bind. intros _. apply sends_200.
  - intros e. eexists. split; [reflexivity | apply sends_500].
Qed.

Lemma V2_get_users_returns (s : server) :
  ∃ r, (run V2.get_users s).1 = Returned r ∧ sends [200; 400; 500] r.
Proof.
  unfold V2.get_users. apply try_catch_returns.
  - apply answers_await_bind. intros l. apply sends_200.
  - intros e. eexists. split; [reflexivity | apply sends_500].
Qed.

Lemma V2_get_stats_returns (s : server) :
  ∃ r, (run V2.get_stats s).1 = Returned r ∧ sends [200; 400; 500] r.
Proof.
  unfold V2.get_stats. apply try_catch_returns.
  - repeat (apply answers_await_bind; intros ?). apply sends_200.
  - intros e. eexists. split; [reflexivity | apply sends_500].
Qed.

Lemma V2_delete_returns (id : string) (s : server) :
  ∃ r, (run (V2.delete_user id) s).1 = Returned r ∧ sends [200; 400; 500] r.
Proof.
  unfold V2.delete_user. apply try_catch_returns.
  - apply answers_await_bind. intros user.
    assert (∀ T (p : prog T) (k : T → prog response),
              answers (λ _, True) p →
              (∀ x, answers (sends [200; 400; 500]) (k x)) →
              answers (sends [200; 400; 500]) (p ≫= k)) as Hseq.
    { intros T p k _ Hk. unfold mbind, prog_bind.
      induction p as [r | e | A c k' IH]; simpl; [apply Hk | done |].
      intros x. apply IH. }
    apply Hseq.
    + destruct user as [user |]; [| done].
      destruct (truthy _); [| done].
      intros [e | []]; simpl; try done. intros [e | []]; done.
    + intros _. apply answers_await_bind. intros _. apply sends_200.
  - intros e. eexists. split; [reflexivity | apply sends_500].
Qed.

End answers_facts.

(** X5. The second version answers every request, in every state of the
    server: no handler's promise is rejected, the status is 200, 400 or 500,
    and the process stays alive. *)
Theorem V2_always_answers `{Runtime} (r : request) (n : node) :
  exited n = None →
  ∃ resp s',
    V2.step (arrives r) n =
      ({| exited := None; connecting := connecting n; srv := s' |},
       Some (Returned resp))
    ∧ status resp ∈ [200; 400; 500].
Proof.
  intros He. unfold V2.step. rewrite He.
  assert (∃ resp, (V2.handle r (srv n)).1 = Returned resp
                  ∧ sends [200; 400; 500] resp) as (resp & Hr & Hs).
  { destruct r; unfold V2.handle; cbv beta iota.
    - unfold V2.post_register.
      destruct (V2.upload_single upload a (srv n)) as [[e | f] s'].
      + eexists. split; [reflexivity |]. unfold sends.
        rewrite error_middleware_400.
        apply list_elem_of_further, list_elem_of_here.
      + apply V2_register_returns.
    - apply V2_get_users_returns.
    - apply V2_get_stats_returns.
    - apply V2_delete_returns.
    - eexists. split; [reflexivity | apply sends_200]. }
  destruct (V2.handle r (srv n)) as [o s']. simpl in Hr. subst o.
  eexists _, _. split; [reflexivity | exact Hs].
Qed.

Lemma V2_always_answers_witness :
  ∃ resp s',
    V2.step (H := node_runtime) (arrives (DELETE_users "not-an-id"))
      (boot true [] ∅) =
      ({| exited := None; connecting := true; srv := s' |},
       Some (Returned resp))
    ∧ status resp ∈ [200; 400; 500].
Proof.
  apply (V2_always_answers (H := node_runtime)). reflexivity.
Defined.

(* ===================================================================== *)
(** ** Further properties: the store not answering *)
(* ===================================================================== *)

(** X6. While the store does not answer ([usersCollection] still undefined,
    or the connection down), the second version answers GET /users, GET
    /stats and DELETE /users/:id with 500 and their own fixed message and
    leaves the server as it was; a complete POST /register whose upload is
    an image within the size limit and has been written is answered 500
    "Registration failed: " followed by the error's message, with the
    documents as they were and the upload left on the disk. *)
Theorem store_unavailable_V2 `{Runtime} (s : server) (id : string) :
  ¬ serving s →
  run V2.get_users s =
    (Returned (res_status_json 500 (message "Failed to fetch users")), s)
  ∧ run V2.get_stats s =
      (Returned (res_status_json 500 (message "Failed to fetch statistics")),
       s)
  ∧ run (V2.delete_user id) s =
      (Returned (res_status_json 500 (message "Failed to delete user")), s)
  ∧ ∀ b f a, complete b → accepted f a →
      ∃ m, V2.post_register b (Some f) a s =
             (Returned (res_status_json 500
                (message ("Registration failed: " ++ m))),
              set_disk ({[path (stored_file f a)]} ∪ disk s) s).
Proof.
  unfold serving. intros Hn.
  destruct s as [[[] |] [] us d]; simpl in Hn;
    try (exfalso; apply Hn; done);
    (split; [reflexivity |]; split; [reflexivity |]; split;
     [unfold V2.delete_user; rewrite run_try_catch, run_bind, run_await;
      simpl; unfold by_id; destruct (ObjectId id); reflexivity |]);
    intros b f a Hc Ha; unfold V2.post_register;
    rewrite upload_single_accepted by done;
    unfold V2.register; cbv zeta;
    rewrite complete_test by done; eexists; simpl; reflexivity.
Qed.

Lemma store_unavailable_V2_witness :
  run (V2.get_users (H := node_runtime)) (srv (boot true [] ∅)) =
    (Returned (res_status_json 500 (message "Failed to fetch users")),
     srv (boot true [] ∅)).
Proof.
  apply (store_unavailable_V2 (H := node_runtime) _ "x").
  intros [Hc _]. discriminate Hc.
Defined.

(** X7. The first version catches nothing.  While the store does not
    answer, the handler of GET /users, GET /stats, DELETE /users/:id or a
    complete POST /register sends no answer and its promise is rejected; so
    is DELETE /users/:id on a malformed identifier at any time.  Under
    Express 4 on a node that throws on unhandled rejections, that one
    request ends the process with code 1, the server left as it was, and
    no later request is answered. *)
Theorem V1_rejection_ends_process `{Runtime} (r : request) (n : node)
    (evs : list event) :
  unhandled_rejections_throw = true →
  express_forwards_rejections = false →
  exited n = None →
  match r with
  | POST_register b _ _ => complete b ∧ ¬ serving (srv n)
  | GET_users | GET_stats => ¬ serving (srv n)
  | DELETE_users id => ¬ serving (srv n) ∨ ObjectId id = None
  | GET_root => False
  end →
  ∃ e,
    steps V1.step (arrives r :: evs) n =
      ({| exited := Some 1; connecting := connecting n; srv := srv n |},
       Some (Rejected e) :: ((λ _, None) <$> evs)).
Proof.
  intros Hthrow Hexp He Hr.
  assert (∃ p e, V1.route r = Some p ∧ run p (srv n) = (Rejected e, srv n))
    as (p & e & Hp & Hrun).
  { unfold serving in Hr. destruct r as [b u a | | | id |]; simpl.
    - destruct Hr as [Hc Hn].
      assert (∃ e, run (V1.post_register b a) (srv n) = (Rejected e, srv n))
        as [e Hrun]; [| by eexists _, _].
      unfold V1.post_register. cbv zeta. rewrite complete_test by done.
      destruct (srv n) as [[[] |] [] us d]; simpl in *;
        try (exfalso; apply Hn; done); eauto.
    - assert (∃ e, run V1.get_users (srv n) = (Rejected e, srv n))
        as [e Hrun]; [| by eexists _, _].
      destruct (srv n) as [[[] |] [] us d]; simpl in *;
        try (exfalso; apply Hr; done); eauto.
    - assert (∃ e, run V1.get_stats (srv n) = (Rejected e, srv n))
        as [e Hrun]; [| by eexists _, _].
      destruct (srv n) as [[[] |] [] us d]; simpl in *;
        try (exfalso; apply Hr; done); eauto.
    - assert (∃ e, run (V1.delete_user id) (srv n) = (Rejected e, srv n))
        as [e Hrun]; [| by eexists _, _].
      unfold V1.delete_user. rewrite run_bind, run_await. simpl.
      unfold on_collection, by_id.
      destruct Hr as [Hn | Hi].
      + destruct (srv n) as [[[] |] [] us d]; simpl in *;
          try (exfalso; apply Hn; done);
          destruct (ObjectId id); eauto.
      + rewrite Hi. destruct (usersCollection (srv n)); eauto.
    - done. }
  exists e. simpl. unfold V1.step at 1. rewrite He, Hp, Hrun, Hexp.
  unfold V1.unhandled_rejection. rewrite Hthrow.
  rewrite V1_steps_exited by (by eexists). reflexivity.
Qed.

Lemma V1_rejection_ends_process_witness :
  ∃ e,
    steps (V1.step (H := node_runtime))
      [arrives (DELETE_users "not-an-id"); arrives GET_users]
      {| exited := None; connecting := false; srv := Sample.with_ana |} =
      ({| exited := Some 1; connecting := false; srv := Sample.with_ana |},
       [Some (Rejected e); None]).
Proof.
  apply (V1_rejection_ends_process (H := node_runtime)
           (DELETE_users "not-an-id")
           {| exited := None; connecting := false; srv := Sample.with_ana |}
           [arrives GET_users]).
  - reflexivity.
  - reflexivity.
  - reflexivity.
  - right. reflexivity.
Defined.

(** X8. The handlers of GET /users, GET /stats and GET / never change the
    server, documents or disk, in any of its states and in either version,
    whether they answer with the data or fail. *)
Theorem reads_change_nothing `{Runtime} (s : server) :
  (run V1.get_users s).2 = s ∧ (run V1.get_stats s).2 = s
  ∧ (run V2.get_users s).2 = s ∧ (run V2.get_stats s).2 = s
  ∧ run V2.get_root s = (Returned (res_json health), s).
Proof.
  repeat split.
  - apply V1_get_users_state.
  - apply V1_get_stats_state.
  - apply V2_get_users_state.
  - apply V2_get_stats_state.
Qed.

(** X9. Startup and the documents already in the store.  A GET /users that
    arrives before the connection is made is answered 500 by the second
    version; once [client.connect()] has resolved, GET /users answers 200 with
    exactly the documents the store holds, in both versions, and the disk and
    the documents are untouched by all of it. *)
Theorem startup_then_list `{Runtime} (docs : list document)
    (files : gset string) :
  steps V2.step [arrives GET_users; connect_resolves; arrives GET_users]
    (boot true docs files) =
    ({| exited := None; connecting := false;
        srv := {| usersCollection := Some registrationDB_users;
                  online := true; users := docs; disk := files |} |},
     [Some (Returned
              (res_status_json 500 (message "Failed to fetch users")));
      None;
      Some (Returned (res_json (documents docs)))])
  ∧ steps V1.step [connect_resolves; arrives GET_users]
      (boot true docs files) =
      ({| exited := None; connecting := false;
          srv := {| usersCollection := Some registrationDB_users;
                    online := true; users := docs; disk := files |} |},
       [None; Some (Returned (res_json (documents docs)))]).
Proof. split; reflexivity. Qed.

(* ===================================================================== *)
(** ** Further properties: registering, counting and deleting together *)
(* ===================================================================== *)

Section compose_facts.
Context `{Runtime}.

(** GET /stats with the store answering: the six counts. *)
Lemma stats_run (s : server) :
  serving s →
  let st := {|
    total := length (users s);
    male := count (matches (f_eq k_gender (text "male"))) s;
    female := count (matches (f_eq k_gender (text "female"))) s;
    beginners := count (matches (f_eq k_experience (text "beginner"))) s;
    competition :=
      count (matches (f_in k_participation ["competition"; "both"])) s;
    workshop :=
      count (matches (f_in k_participation ["workshop"; "both"])) s |} in
  run V1.get_stats s = (Returned (res_json (statistics st)), s)
  ∧ run V2.get_stats s = (Returned (res_json (statistics st)), s).
Proof.
  intros [Hc Ho]. destruct s as [[[] |] [] us d]; simpl in *; simplify_eq.
  unfold count. simpl. rewrite List.filter_true. split; reflexivity.
Qed.

Lemma count_snoc (f : document → bool) (s : server) (d : document) :
  count f (set_users (users s ++ [d]) s) = (count f s + Nat.b2n (f d))%nat.
Proof.
  unfold count. simpl. rewrite List.filter_app, length_app. simpl.
  destruct (f d); reflexivity.
Qed.

Lemma remove_first_snoc (i : oid) (l : list document) (d : document) :
  i ∉ _id <$> l → _id d = i →
  remove_first (matches (f_id i)) (l ++ [d]) = l.
Proof.
  intros Hn Hd. induction l as [| x l IH]; simpl.
  - rewrite bool_decide_eq_true_2 by done. reflexivity.
  - rewrite fmap_cons, not_elem_of_cons in Hn. destruct Hn as [Hx Hn].
    rewrite bool_decide_eq_false_2 by (intros Heq; by apply Hx).
    by rewrite IH.
Qed.

Lemma find_snoc (i : oid) (l : list document) (d : document) :
  i ∉ _id <$> l → _id d = i →
  head (List.filter (matches (f_id i)) (l ++ [d])) = Some d.
Proof.
  intros Hn Hd. induction l as [| x l IH]; simpl.
  - rewrite bool_decide_eq_true_2 by done. reflexivity.
  - rewrite fmap_cons, not_elem_of_cons in Hn. destruct Hn as [Hx Hn].
    rewrite bool_decide_eq_false_2 by (intros Heq; by apply Hx).
    by apply IH.
Qed.

(** With [_id]s and emails unique, removing a document by its [_id] removes
    its email with it. *)
Lemma remove_first_email (d : document) (l : list document) :
  NoDup (_id <$> l) → NoDup (email <$> l) → d ∈ l →
  email d ∉ email <$> remove_first (matches (f_id (_id d))) l.
Proof.
  induction l as [| x l IH]; simpl; [intros _ _ Hin; inversion Hin |].
  intros Hi He Hin.
  apply NoDup_cons in Hi as [Hxi Hi]. apply NoDup_cons in He as [Hxe He].
  case_bool_decide as Hx.
  - apply elem_of_cons in Hin as [-> | Hin]; [done |].
    exfalso. apply Hxi. rewrite Hx. apply list_elem_of_fmap. eauto.
  - apply elem_of_cons in Hin as [-> | Hin]; [done |].
    simpl. rewrite not_elem_of_cons. split; [| by apply IH].
    intros Heq. apply Hxe. rewrite <- Heq. apply list_elem_of_fmap. eauto.
Qed.

Lemma remove_first_keeps {A} (f : A → bool) (l : list A) (x : A) :
  x ∈ l → f x = false → x ∈ remove_first f l.
Proof.
  induction l as [| y l IH]; simpl; [done |]. intros Hin Hx.
  apply elem_of_cons in Hin as [<- | Hin].
  - rewrite Hx. apply list_elem_of_here.
  - destruct (f y); [done |]. apply list_elem_of_further. by apply IH.
Qed.

Lemma remove_first_length {A} (f : A → bool) (l : list A) (x : A) :
  x ∈ l → f x = true →
  (length (remove_first f l) + 1 = length l)%nat.
Proof.
  induction l as [| y l IH]; simpl; [intros Hin; inversion Hin |].
  intros Hin Hx. destruct (f y) eqn:Hy; [lia |].
  apply elem_of_cons in Hin as [-> | Hin]; [congruence |].
  simpl. specialize (IH Hin Hx). lia.
Qed.

End compose_facts.

(** X10. A successful registration is counted.  After a submission that
    succeeds (a complete form with a new email and a new [_id], the store
    answering, and in the second version an upload that is an image within
    the size limit and has been written), GET /stats of either version
    answers with [total] one higher
    and with each other count higher by one exactly when the form's field
    has the counted value: [male] and [female] by gender, [beginners] by
    experience "beginner", [competition] by participation "competition" or
    "both", [workshop] by participation "workshop" or "both". *)
Theorem registration_counted `{Runtime} (b : Form.t) (f : part)
    (a : ambient) (s : server) :
  complete b → accepted f a → serving s →
  ¬ registered b s → ¬ stored (new_ObjectId a) s →
  let s1 := (run (V1.post_register b a) s).2 in
  let s2 := (V2.post_register b (Some f) a s).2 in
  ∃ st st',
    run V1.get_stats s = (Returned (res_json (statistics st)), s)
    ∧ run V1.get_stats s1 = (Returned (res_json (statistics st')), s1)
    ∧ run V2.get_stats s2 = (Returned (res_json (statistics st')), s2)
    ∧ total st' = S (total st)
    ∧ male st' =
        (male st + Nat.b2n (bool_decide (Form.gender b = text "male")))%nat
    ∧ female st' =
        (female st + Nat.b2n (bool_decide (Form.gender b = text "female")))%nat
    ∧ beginners st' =
        (beginners st
         + Nat.b2n (bool_decide (Form.experience b = text "beginner")))%nat
    ∧ competition st' =
        (competition st
         + Nat.b2n (bool_decide (Form.participation b ∈
                                   [text "competition"; text "both"])))%nat
    ∧ workshop st' =
        (workshop st
         + Nat.b2n (bool_decide (Form.participation b ∈
                                   [text "workshop"; text "both"])))%nat.
Proof.
  intros Hb Hf Hs Hr Hi. cbv zeta.
  rewrite V1_register_new by done.
  rewrite bool_decide_eq_false_2 by apply Hi.
  unfold V2.post_register. rewrite upload_single_accepted by done.
  rewrite V2_register_new; [| done | apply Hs | apply Hr].
  rewrite bool_decide_eq_false_2 by apply Hi.
  simpl snd.
  destruct (stats_run s Hs) as [H0 _].
  destruct (stats_run (set_users (users s ++ [V1_document b a]) s))
    as [H1 _]; [apply Hs |].
  destruct (stats_run
              (set_users (users (set_disk ({[path (stored_file f a)]}
                                             ∪ disk s) s)
                          ++ [V2_document b (stored_file f a) a])
                 (set_disk ({[path (stored_file f a)]} ∪ disk s) s)))
    as [_ H2]; [apply Hs |].
  cbv zeta in H0, H1, H2.
  eexists _, {|
    total := S (length (users s));
    male := count (matches (f_eq k_gender (text "male"))) s
            + Nat.b2n (bool_decide (Form.gender b = text "male"));
    female := count (matches (f_eq k_gender (text "female"))) s
              + Nat.b2n (bool_decide (Form.gender b = text "female"));
    beginners :=
      count (matches (f_eq k_experience (text "beginner"))) s
      + Nat.b2n (bool_decide (Form.experience b = text "beginner"));
    competition :=
      count (matches (f_in k_participation ["competition"; "both"])) s
      + Nat.b2n (bool_decide (Form.participation b ∈
                                [text "competition"; text "both"]));
    workshop :=
      count (matches (f_in k_participation ["workshop"; "both"])) s
      + Nat.b2n (bool_decide (Form.participation b ∈
                                [text "workshop"; text "both"])) |}.
  split; [exact H0 |]. split; [| split].
  - rewrite H1. do 4 f_equal. rewrite !count_snoc. simpl.
    rewrite length_app. simpl. f_equal. lia.
  - etrans; [exact H2 |]. do 4 f_equal. rewrite !count_snoc. simpl.
    rewrite length_app. simpl. unfold count. simpl. f_equal. lia.
  - repeat split.
Qed.

Lemma registration_counted_witness :
  ∃ st',
    run (V1.get_stats (H := node_runtime))
      (run (V1.post_register (H := node_runtime) Sample.ana Sample.first)
         Sample.fresh).2 =
      (Returned (res_json (statistics st')),
       (run (V1.post_register (H := node_runtime) Sample.ana Sample.first)
          Sample.fresh).2)
    ∧ (total st', male st', female st', beginners st', competition st',
       workshop st') = (1, 0, 1, 1, 1, 1)%nat.
Proof.
  destruct (registration_counted (H := node_runtime) Sample.ana
              Sample.receipt Sample.first Sample.fresh)
    as (st & st' & H0 & H1 & _ & Ht & Hm & Hf & Hb & Hc & Hw).
  - repeat constructor.
  - split; [reflexivity | split; [vm_compute; discriminate | reflexivity]].
  - split; reflexivity.
  - unfold registered. simpl. apply not_elem_of_nil.
  - unfold stored. simpl. apply not_elem_of_nil.
  - exists st'. split; [exact H1 |].
    assert (st = {| total := 0; male := 0; female := 0; beginners := 0;
                    competition := 0; workshop := 0 |}) as ->.
    { assert ((run (V1.get_stats (H := node_runtime)) Sample.fresh).1
              = Returned (res_json (statistics
                   {| total := 0; male := 0; female := 0; beginners := 0;
                      competition := 0; workshop := 0 |})))
        as Hrun by (vm_compute; reflexivity).
      rewrite H0 in Hrun. injection Hrun as Hrun. exact Hrun. }
    rewrite Ht, Hm, Hf, Hb, Hc, Hw. reflexivity.
Defined.

(** X11. Registering and then deleting by the [_id] the new document was
    given brings the server back to where it was: in the first version
    exactly; in the second version documents and disk alike, provided the
    upload has been written and no file existed before at its path, which
    is the path [path.join] makes of the payments directory and the
    generated name (and is not the empty string). *)
Theorem register_then_delete `{Runtime} (b : Form.t) (f : part)
    (a : ambient) (s : server) (id : string) :
  complete b → accepted f a → serving s →
  ¬ registered b s → ¬ stored (new_ObjectId a) s →
  ObjectId id = Some (new_ObjectId a) →
  run (V1.delete_user id) (run (V1.post_register b a) s).2 =
    (Returned (res_json (message "User deleted successfully")), s)
  ∧ (path (stored_file f a) ∉ disk s → path (stored_file f a) ≠ "" →
     run (V2.delete_user id) (V2.post_register b (Some f) a s).2 =
       (Returned (res_json (message "User deleted successfully")), s)).
Proof.
  intros Hb Hf Hs Hr Hi Hid. split.
  - rewrite V1_register_new by done.
    rewrite bool_decide_eq_false_2 by apply Hi. simpl snd.
    rewrite V1_delete_run by apply Hs. rewrite Hid. simpl.
    rewrite remove_first_snoc by done. by destruct s.
  - intros Hp Hne. unfold V2.post_register.
    rewrite upload_single_accepted by done.
    rewrite V2_register_new; [| done | apply Hs | apply Hr].
    rewrite bool_decide_eq_false_2 by apply Hi. simpl snd.
    rewrite (V2_delete_run id (new_ObjectId a)); [| apply Hs | done].
    simpl users. rewrite remove_first_snoc, find_snoc by done.
    f_equal. unfold swept.
    cbn [V2_document paymentScreenshotPath ToString].
    assert (truthy (text (path (stored_file f a))) = true) as ->.
    { unfold truthy. apply negb_true_iff, String.eqb_neq, Hne. }
    cbn [disk set_users set_disk].
    rewrite bool_decide_eq_true_2
      by (apply elem_of_union_l, elem_of_singleton; reflexivity).
    destruct s as [c o us d]. unfold set_users, set_disk. simpl in *.
    f_equal. apply set_eq. intros x.
    rewrite elem_of_difference, elem_of_union, elem_of_singleton.
    split; [tauto |]. intros Hx. split; [tauto |]. by intros ->.
Qed.

Lemma register_then_delete_witness :
  run (V2.delete_user (H := node_runtime) Sample.id2)
    (V2.post_register (H := node_runtime) Sample.ana (Some Sample.receipt)
       Sample.second Sample.fresh).2 =
    (Returned (res_json (message "User deleted successfully")), Sample.fresh).
Proof.
  destruct (register_then_delete (H := node_runtime) Sample.ana
              Sample.receipt Sample.second Sample.fresh Sample.id2)
    as [_ H2].
  - repeat constructor.
  - split; [reflexivity | split; [vm_compute; discriminate | reflexivity]].
  - split; reflexivity.
  - unfold registered. simpl. apply not_elem_of_nil.
  - unfold stored. simpl. apply not_elem_of_nil.
  - reflexivity.
  - apply H2; [simpl; apply not_elem_of_empty | vm_compute; discriminate].
Defined.

(** X12. Deleting a registration frees its email.  With [_id]s and emails
    unique, a complete submission with a stored document's email is answered
    "User already registered with this email" while the document is there,
    and succeeds once that document has been deleted. *)
Theorem delete_frees_email `{Runtime} (d : document) (id : string)
    (b : Form.t) (a : ambient) (s : server) :
  serving s → ids_unique s → one_per_email s →
  d ∈ users s → ObjectId id = Some (_id d) →
  complete b → Form.email b = email d → ¬ stored (new_ObjectId a) s →
  let s' := (run (V1.delete_user id) s).2 in
  run (V1.post_register b a) s =
    (Returned (res_json (message "User already registered with this email")),
     s)
  ∧ run (V1.post_register b a) s' =
      (Returned (res_json
         (message "Registration successful! See you at the festival!")),
       set_users (users s' ++ [V1_document b a]) s').
Proof.
  intros Hs Hi He Hd Hid Hb Hem Hnew. cbv zeta. split.
  - apply V1_register_duplicate; try done.
    unfold registered. rewrite Hem. apply list_elem_of_fmap. eauto.
  - rewrite V1_delete_run by done. rewrite Hid. simpl snd.
    rewrite V1_register_new; [| done | apply Hs |].
    + rewrite bool_decide_eq_false_2; [reflexivity |].
      simpl. intros Hin. apply Hnew. unfold stored.
      eapply elem_of_sublist; [exact Hin |].
      apply fmap_sublist, remove_first_sublist.
    + unfold registered. simpl. rewrite Hem.
      by apply remove_first_email.
Qed.

Lemma delete_frees_email_witness :
  run (V1.post_register (H := node_runtime) Sample.ana Sample.second)
    (run (V1.delete_user (H := node_runtime) Sample.id1) Sample.with_ana).2 =
    (Returned (res_json
       (message "Registration successful! See you at the festival!")),
     set_users [V1_document (H := node_runtime) Sample.ana Sample.second]
       Sample.fresh).
Proof.
  destruct (delete_frees_email (H := node_runtime) Sample.ana_doc Sample.id1
              Sample.ana Sample.second Sample.with_ana) as [_ H2].
  - split; reflexivity.
  - apply NoDup_singleton.
  - apply NoDup_singleton.
  - apply list_elem_of_here.
  - reflexivity.
  - repeat constructor.
  - reflexivity.
  - unfold stored. simpl. decide_by_computation.
  - exact H2.
Defined.

(** X13. Deleting twice is deleting once: with the store answering and
    [_id]s unique, a second DELETE of the same identifier answers 200 again
    and changes nothing, in both versions. *)
Theorem delete_twice `{Runtime} (id : string) (i : oid) (s : server) :
  ObjectId id = Some i → serving s → ids_unique s →
  let s1 := (run (V1.delete_user id) s).2 in
  let s2 := (run (V2.delete_user id) s).2 in
  run (V1.delete_user id) s1 =
    (Returned (res_json (message "User deleted successfully")), s1)
  ∧ run (V2.delete_user id) s2 =
      (Returned (res_json (message "User deleted successfully")), s2).
Proof.
  intros Hi Hs Hu. cbv zeta.
  rewrite (V1_delete_run id s) by done. rewrite Hi.
  rewrite (V2_delete_run id i s) by done. simpl snd.
  pose proof (remove_first_absent i (users s) Hu) as Habs.
  pose proof (absent_no_match i _ Habs) as Hno.
  split.
  - rewrite V1_delete_run, Hi by apply Hs. simpl.
    rewrite remove_first_none by done. reflexivity.
  - rewrite (V2_delete_run id i); [| apply Hs | done]. simpl users.
    rewrite remove_first_none by done.
    apply head_filter_None in Hno. rewrite Hno. reflexivity.
Qed.

Lemma delete_twice_witness :
  let s2 := (run (V2.delete_user (H := node_runtime) Sample.id1)
               Sample.with_ana_paid).2 in
  run (V2.delete_user (H := node_runtime) Sample.id1) s2 =
    (Returned (res_json (message "User deleted successfully")), s2).
Proof.
  destruct (delete_twice (H := node_runtime) Sample.id1 Sample.id1
              Sample.with_ana_paid) as [_ H2].
  - reflexivity.
  - split; reflexivity.
  - apply NoDup_singleton.
  - exact H2.
Defined.

(** X14. Emails are compared as they are written.  Two complete submissions
    whose emails differ in any way (in the case of a letter, say) and are
    both unused are both stored, in the order they came. *)
Theorem distinct_emails_both_register `{Runtime} (b1 b2 : Form.t)
    (a1 a2 : ambient) (s : server) :
  complete b1 → complete b2 → serving s →
  Form.email b1 ≠ Form.email b2 →
  ¬ registered b1 s → ¬ registered b2 s →
  ¬ stored (new_ObjectId a1) s → ¬ stored (new_ObjectId a2) s →
  new_ObjectId a1 ≠ new_ObjectId a2 →
  run (V1.post_register b2 a2) (run (V1.post_register b1 a1) s).2 =
    (Returned (res_json
       (message "Registration successful! See you at the festival!")),
     set_users (users s ++ [V1_document b1 a1; V1_document b2 a2]) s).
Proof.
  intros Hb1 Hb2 Hs Hne Hr1 Hr2 Hi1 Hi2 Hid.
  rewrite (V1_register_new b1 a1 s) by done.
  rewrite bool_decide_eq_false_2 by apply Hi1. simpl snd.
  rewrite V1_register_new; [| done | apply Hs |].
  - rewrite bool_decide_eq_false_2.
    + simpl. rewrite <- app_assoc. reflexivity.
    + simpl. rewrite fmap_app, elem_of_app. simpl.
      rewrite list_elem_of_singleton. intros [Hin | Heq]; [by apply Hi2 |].
      by apply Hid.
  - unfold registered. simpl. rewrite fmap_app, elem_of_app. simpl.
    rewrite list_elem_of_singleton. intros [Hin | Heq]; [by apply Hr2 |].
    by apply Hne.
Qed.

Lemma distinct_emails_both_register_witness :
  ∃ s',
    run (V1.post_register (H := node_runtime)
           (Sample.with_email (text "A@x.com") Sample.ana) Sample.second)
      Sample.with_ana =
      (Returned (res_json
         (message "Registration successful! See you at the festival!")), s')
    ∧ email <$> users s' = [text "a@x.com"; text "A@x.com"].
Proof.
  pose proof (distinct_emails_both_register (H := node_runtime) Sample.ana
                (Sample.with_email (text "A@x.com") Sample.ana)
                Sample.first Sample.second Sample.fresh) as Hboth.
  eexists. split.
  - apply Hboth.
    + repeat constructor.
    + repeat constructor.
    + split; reflexivity.
    + discriminate.
    + unfold registered. simpl. apply not_elem_of_nil.
    + unfold registered. simpl. apply not_elem_of_nil.
    + unfold stored. simpl. apply not_elem_of_nil.
    + unfold stored. simpl. apply not_elem_of_nil.
    + discriminate.
  - reflexivity.
Defined.

(* ===================================================================== *)
(** ** Further properties: the names of the stored uploads *)
(* ===================================================================== *)

Section filename_facts.

(** A number printed in decimal holds no "_": what comes before the first
    "_" of a file name is the whole time stamp. *)
Lemma string_of_uint_sep (d d' : uint) (x y : string) :
  NilEmpty.string_of_uint d ++ String "_" x =
  NilEmpty.string_of_uint d' ++ String "_" y →
  d = d'.
Proof.
  revert d'.
  induction d as [| d IH | d IH | d IH | d IH | d IH | d IH | d IH | d IH
                  | d IH | d IH];
    intros [| d' | d' | d' | d' | d' | d' | d' | d' | d' | d']; simpl;
    intros Heq; try discriminate Heq; try reflexivity;
    injection Heq as Heq; f_equal; by apply IH.
Qed.

Lemma showN_sep (n m : N) (x y : string) :
  showN n ++ String "_" x = showN m ++ String "_" y → n = m.
Proof.
  unfold showN. intros Heq. apply string_of_uint_sep in Heq.
  by apply DecimalN.Unsigned.to_uint_inj.
Qed.

End filename_facts.

(** X15. The name the storage gives an upload ([req.file.filename], stored
    as [paymentScreenshot]) starts with the time stamp: uploads named at
    different values of [Date.now()] get different names, whatever the
    phone and the original name are; uploads named at the same value, with
    the same [req.body.phone] when the file part arrives and the same
    original name, get the same name and the same path. *)
Theorem upload_names `{Runtime} (f1 f2 : part) (a1 a2 : ambient) :
  (Date_now a1 ≠ Date_now a2 →
   filename (stored_file f1 a1) ≠ filename (stored_file f2 a2))
  ∧ (Date_now a1 = Date_now a2 → body_phone a1 = body_phone a2 →
     originalname f1 = originalname f2 →
     stored_file f1 a1 = stored_file f2 a2).
Proof.
  split.
  - intros Hne Heq. apply Hne. unfold stored_file in Heq.
    cbn [filename] in Heq. unfold V2.storage_filename in Heq.
    by apply showN_sep in Heq.
  - intros Ht Hp Ho. unfold stored_file, V2.storage_filename.
    by rewrite Ht, Hp, Ho.
Qed.

Lemma upload_names_witness :
  filename (stored_file (H := node_runtime) Sample.receipt Sample.first)
  ≠ filename (stored_file (H := node_runtime) Sample.receipt Sample.second).
Proof.
  apply (upload_names (H := node_runtime)). discriminate.
Defined.

(** Different names need not lead to different files: a phone that
    [path.join] reads as path segments takes the time stamp out of the
    path. *)
Lemma upload_paths_collide :
  filename (stored_file (H := node_runtime) Sample.receipt Sample.dots_first)
  ≠ filename (stored_file (H := node_runtime) Sample.receipt
                Sample.dots_second)
  ∧ path (stored_file (H := node_runtime) Sample.receipt Sample.dots_first)
    = Sample.dots_path
  ∧ path (stored_file (H := node_runtime) Sample.receipt Sample.dots_second)
    = Sample.dots_path.
Proof.
  split; [discriminate |]. split; vm_compute; reflexivity.
Qed.

(* ===================================================================== *)
(** ** Further properties: what a deletion leaves alone *)
(* ===================================================================== *)

(** X16. DELETE /users/:id of the second version, with the store answering
    and [_id]s unique, removes nothing but its target: every document with
    another [_id] is still stored, every file other than the screenshot the
    deleted document names is still on the disk, no file appears, and the
    number of documents goes down by exactly one when the [_id] was
    stored. *)
Theorem delete_spares_the_rest `{Runtime} (id : string) (i : oid)
    (s : server) :
  ObjectId id = Some i → serving s → ids_unique s →
  let s2 := (run (V2.delete_user id) s).2 in
  (∀ d, d ∈ users s → _id d ≠ i → d ∈ users s2)
  ∧ (∀ p, p ∈ disk s →
          (∀ user, user ∈ users s → _id user = i →
                   ToString (paymentScreenshotPath user) ≠ p) →
          p ∈ disk s2)
  ∧ disk s2 ⊆ disk s
  ∧ (stored i s → (length (users s2) + 1 = length (users s))%nat).
Proof.
  intros Hi Hs Hu. cbv zeta. rewrite (V2_delete_run id i) by done.
  simpl snd. simpl users. simpl disk.
  split; [| split; [| split]].
  - intros d Hd Hne. apply remove_first_keeps; [done |].
    simpl. by apply bool_decide_eq_false.
  - intros p Hp Hother.
    destruct (head _) as [user |] eqn:Hh; simpl; [| done].
    apply head_filter_Some in Hh as [Hin Hm].
    simpl in Hm. apply bool_decide_eq_true in Hm.
    destruct (truthy _ && bool_decide _); [| done].
    rewrite elem_of_difference, elem_of_singleton. split; [done |].
    intros ->. by eapply Hother.
  - destruct (head _) as [user |]; simpl; [| done].
    destruct (truthy _ && bool_decide _); [| done].
    intros x. rewrite elem_of_difference. tauto.
  - unfold stored. intros Hin.
    apply list_elem_of_fmap in Hin as (d & -> & Hd).
    apply (remove_first_length _ _ d); [done |].
    simpl. by apply bool_decide_eq_true.
Qed.

Lemma delete_spares_the_rest_witness :
  Sample.ana_paid ∈
    users (run (V2.delete_user (H := node_runtime) Sample.id2)
             Sample.with_ana_paid).2.
Proof.
  destruct (delete_spares_the_rest (H := node_runtime) Sample.id2 Sample.id2
              Sample.with_ana_paid) as [Hkeep _].
  - reflexivity.
  - split; reflexivity.
  - apply NoDup_singleton.
  - apply Hkeep; [apply list_elem_of_here | discriminate].
Defined.

(* ===================================================================== *)
(** ** Further properties: bounds of the statistics *)
(* ===================================================================== *)

(** X17. With the store answering, none of the five counts of GET /stats
    exceeds [total], and on an empty collection all six are 0. *)
Theorem stats_bounds `{Runtime} (s : server) :
  serving s →
  ∃ st,
    run V1.get_stats s = (Returned (res_json (statistics st)), s)
    ∧ run V2.get_stats s = (Returned (res_json (statistics st)), s)
    ∧ (male st ≤ total st ∧ female st ≤ total st ∧ beginners st ≤ total st
       ∧ competition st ≤ total st ∧ workshop st ≤ total st)%nat
    ∧ (users s = [] →
       st = {| total := 0; male := 0; female := 0; beginners := 0;
               competition := 0; workshop := 0 |}).
Proof.
  intros Hs. destruct (stats_run s Hs) as [H1 H2]. cbv zeta in H1, H2.
  eexists. split; [exact H1 |]. split; [exact H2 |].
  assert (∀ g : document → bool, (count g s ≤ length (users s))%nat) as Hle.
  { intros g. unfold count.
    rewrite <- (List.filter_true (users s)) at 2.
    by apply count_le. }
  split.
  - simpl. repeat split; apply Hle.
  - intros He. unfold count. rewrite He. reflexivity.
Qed.

Lemma stats_bounds_witness :
  ∃ st,
    run (V1.get_stats (H := node_runtime)) Sample.fresh =
      (Returned (res_json (statistics st)), Sample.fresh)
    ∧ total st = 0%nat.
Proof.
  destruct (stats_bounds (H := node_runtime) Sample.fresh)
    as (st & H1 & _ & _ & Hempty).
  - split; reflexivity.
  - exists st. split; [exact H1 |]. rewrite Hempty; reflexivity.
Defined.

(* ===================================================================== *)
(** ** Further properties: what the duplicate branch unlinks *)
(* ===================================================================== *)

(** X18. The duplicate branch unlinks by path.  When a complete submission
    whose upload is an image within the size limit and has been written is
    refused, the store answering, because its email is registered, every
    file on the disk other than the one at the upload's path (the path
    [path.join] makes of the payments directory and the generated name) is
    still there and the documents are as they were; but if a stored
    document names that same path, that document stays while its screenshot
    is gone from the disk. *)
Theorem duplicate_unlinks_by_path `{Runtime} (b : Form.t) (f : part)
    (a : ambient) (s : server) :
  complete b → accepted f a → serving s → registered b s →
  let p := path (stored_file f a) in
  let s' := (V2.post_register b (Some f) a s).2 in
  users s' = users s
  ∧ (∀ q, q ∈ disk s → q ≠ p → q ∈ disk s')
  ∧ (∀ d, d ∈ users s → paymentScreenshotPath d = text p →
          d ∈ users s' ∧ ToString (paymentScreenshotPath d) ∉ disk s').
Proof.
  intros Hb Hf Hs Hr. cbv zeta.
  assert (V2.post_register b (Some f) a s =
            (Returned (res_status_json 400
               (message "User already registered with this email")),
             set_disk (({[path (stored_file f a)]} ∪ disk s)
                       ∖ {[path (stored_file f a)]})
               (set_disk ({[path (stored_file f a)]} ∪ disk s) s)))
    as ->.
  { unfold V2.post_register. rewrite upload_single_accepted by done.
    rewrite V2_register_duplicate; [| done | apply Hs | apply Hr].
    cbn [disk set_disk].
    rewrite bool_decide_eq_true_2
      by (apply elem_of_union_l, elem_of_singleton; reflexivity).
    reflexivity. }
  cbn [snd users disk set_disk set_users]. split; [done |]. split.
  - intros q Hq Hne.
    rewrite elem_of_difference, elem_of_union, elem_of_singleton. tauto.
  - intros d Hd Hp. split; [done |]. rewrite Hp. cbn [ToString].
    rewrite elem_of_difference, elem_of_singleton. tauto.
Qed.

Lemma duplicate_unlinks_by_path_witness :
  Sample.dots_paid ∈
    users (V2.post_register (H := node_runtime) Sample.dots
             (Some Sample.receipt) Sample.dots_second
             Sample.with_dots_paid).2
  ∧ ToString (paymentScreenshotPath (H := node_runtime) Sample.dots_paid) ∉
      disk (V2.post_register (H := node_runtime) Sample.dots
              (Some Sample.receipt) Sample.dots_second
              Sample.with_dots_paid).2.
Proof.
  destruct (duplicate_unlinks_by_path (H := node_runtime) Sample.dots
              Sample.receipt Sample.dots_second Sample.with_dots_paid)
    as (_ & _ & Hgone).
  - repeat constructor.
  - split; [reflexivity | split; [vm_compute; discriminate | reflexivity]].
  - split; reflexivity.
  - apply list_elem_of_here.
  - apply Hgone; [apply list_elem_of_here | vm_compute; reflexivity].
Defined.
